(** * keyboard_remote: the evdev capture loop and its setup

    A shallow embedding of [homeassistant/components/keyboard_remote.py].

    The component talks to four collaborators: the file system
    ([os.path.exists], [os.listdir]), evdev ([InputDevice], [grab],
    [read_one], [categorize]), the clock ([time.sleep]) and the host
    ([hass.bus], the logger, the [stopped] flag another thread sets).
    What the collaborators answer is an input of the model; what the
    component asks them to do is recorded, in program order, as a list
    of [action]s.  Questions that change nothing ([isSet],
    [os.path.exists]) are answers only and leave no action behind. *)

From stdpp Require Import base strings gmap list.
From Stdlib Require Import ZArith Lia.

Local Open Scope Z_scope.

(** ** Module constants (lines 46-54) *)

Definition DOMAIN : string := "keyboard_remote".
Definition KEYBOARD_REMOTE_COMMAND_RECEIVED : string :=
  "keyboard_remote_command_received".
Definition KEY_CODE : string := "key_code".
Definition KEY_VALUE : gmap string Z :=
  {[ "key_up"%string := 0; "key_down"%string := 1; "key_hold"%string := 2 ]}.
Definition TYPE : string := "type".
Definition DEVICE_DESCRIPTOR : string := "device_descriptor".

(** The values [CONFIG_SCHEMA] admits for [TYPE] (line 60). *)
Definition TYPES : list string :=
  ["key_up"%string; "key_down"%string; "key_hold"%string].

(** [evdev.ecodes.EV_KEY], the kernel's event type of key events. *)
Definition EV_KEY : Z := 1.

(** ** Values that cross the boundary *)

(** Exceptions.  The loop's only handler is [except IOError], so all
    that matters of an exception is whether it is one.  [IOError] stands
    for [OSError] and its subclasses ([FileNotFoundError] among them),
    which Python 3 does not tell apart from it. *)
Inductive exn : Type :=
| IOError
| KeyError
| AttributeError.

Definition is_IOError (x : exn) : bool :=
  match x with IOError => true | _ => false end.

(** An [evdev.InputDevice]: the node it was opened on and the file
    descriptor the open returned. *)
Record InputDevice : Type := mkInputDevice {
  fn : string;
  fd : Z
}.

(** An [evdev.InputEvent], as far as the component looks into it. *)
Record InputEvent : Type := mkInputEvent {
  ev_type : Z;
  ev_code : Z;
  ev_value : Z
}.

(** What [setup] hands back to its caller. *)
Inductive pyval : Type :=
| PyNone
| PyBool (b : bool).

(** Python's truth value of a result ([if setup(...)]). *)
Definition truthy (v : pyval) : bool :=
  match v with
  | PyNone => false
  | PyBool b => b
  end.

(** Python's [==] on these values; [None == False] is [False]. *)
Definition py_eq (v w : pyval) : bool :=
  match v, w with
  | PyNone, PyNone => true
  | PyBool a, PyBool b => Bool.eqb a b
  | _, _ => false
  end.

(** Arguments of a log call. *)
Inductive logarg : Type :=
| LStr (s : string)
| LDev (d : InputDevice)
| LNames (l : list string)
| LCategorized (e : InputEvent).

Inductive level : Type := DEBUG | ERROR.

(** The two host events [setup] subscribes to, and what it subscribes. *)
Inductive host_event : Type :=
| EVENT_HOMEASSISTANT_START
| EVENT_HOMEASSISTANT_STOP.

Inductive callback : Type :=
| _start_keyboard_remote
| _stop_keyboard_remote.

(** Everything the component can ask of its collaborators, as a call
    the source makes.  [Ungrab] and [Close] are the two calls evdev
    offers to give a device back.  What Python does on its own to an
    object nothing refers to any more is no call and is not recorded. *)
Inductive action : Type :=
| Log (lvl : level) (msg : logarg) (args : list logarg)
| Sleep (seconds : Z)
| Open (path : string)
| Grab (d : InputDevice)
| ReadOne (d : InputDevice)
| Ungrab (d : InputDevice)
| Close (d : InputDevice)
| Fire (event_type : string) (event_data : gmap string Z)
| ListenOnce (e : host_event) (cb : callback).

Definition is_fire (a : action) : bool :=
  match a with Fire _ _ => true | _ => false end.

Definition is_open (a : action) : bool :=
  match a with Open _ => true | _ => false end.

Definition is_release (a : action) : bool :=
  match a with Ungrab _ | Close _ => true | _ => false end.

Definition is_grab (a : action) : bool :=
  match a with Grab _ => true | _ => false end.

Definition is_sleep (a : action) : bool :=
  match a with Sleep _ => true | _ => false end.

Definition is_read (a : action) : bool :=
  match a with ReadOne _ => true | _ => false end.

(** How many actions of a kind [p] a trace holds. *)
Definition count (p : action → bool) (t : list action) : nat :=
  length (filter (λ x, p x = true) t).

(** ** The object and the answers of the world *)

(** [KeyboardRemote] (lines 107-116).  [hass] and [stopped] are the
    host's; [key_value] is [None] when [KEY_VALUE.get] found nothing. *)
Record KeyboardRemote : Type := mkKeyboardRemote {
  dev : InputDevice;
  key_value : option Z;
  device_descriptor : string
}.

Inductive read_result : Type :=
| ReadEvent (e : InputEvent)
| ReadNothing
| ReadRaises (x : exn).

(** What the world answers during one pass over the [while] loop.
    [categorize_result] is what [evdev.categorize] does with the event
    of the pass when it is called: for a key event it looks the code up
    in the table of key names, and evdev 0.6.1 raises [KeyError] when
    the code has no name. *)
Record answers : Type := mkAnswers {
  stopped_isSet : bool;
  path_exists : bool;
  open_result : exn + Z;
  grab_result : exn + unit;
  read_one_result : read_result;
  categorize_result : exn + unit
}.

(** The exception of the acquisition of a pass, if the open or the grab
    raises. *)
Definition acquire_error (a : answers) : option exn :=
  match open_result a with
  | inl x => Some x
  | inr _ =>
      match grab_result a with
      | inl x => Some x
      | inr _ => None
      end
  end.

(** The loop's state: the object and the local [keyboard_connected]. *)
Record loop_state : Type := mkLoopState {
  self : KeyboardRemote;
  keyboard_connected : bool
}.

Definition set_dev (k : KeyboardRemote) (d : InputDevice) : KeyboardRemote :=
  {| dev := d; key_value := key_value k;
     device_descriptor := device_descriptor k |}.

(** How one pass over the loop body ends. *)
Inductive ending : Type :=
| Continue
| Raised (x : exn).

(** ** The loop body (lines 128-162) *)

(** The integers CPython keeps as single objects, -5 to 256: on these
    [is] agrees with [==].  An integer outside the range that comes out
    of a read is an object of its own. *)
Definition small_int (v : Z) : bool := (-5 <=? v) && (v <=? 256).

(** [event.type is ecodes.EV_KEY and event.value is self.key_value]
    (line 157).  [is] is identity: [EV_KEY] is a small integer, so the
    first test is equality; the second holds when [key_value] is the
    same small integer as the value read, and fails when [key_value] is
    [None] or an integer outside the range. *)
Definition accepts (k : KeyboardRemote) (e : InputEvent) : bool :=
  bool_decide (ev_type e = EV_KEY)
  && (bool_decide (key_value k = Some (ev_value e)) && small_int (ev_value e)).

(** Lines 157-162.  [categorize(event)] is evaluated first, as the
    argument of the debug call, outside the [try]: when it raises,
    nothing is logged or fired and the exception leaves the loop. *)
Definition dispatch (k : KeyboardRemote) (a : answers) (e : InputEvent)
  : ending * list action :=
  if accepts k e then
    match categorize_result a with
    | inl x => (Raised x, [])
    | inr _ =>
        (Continue,
         [Log DEBUG (LCategorized e) [];
          Fire KEYBOARD_REMOTE_COMMAND_RECEIVED {[ KEY_CODE := ev_code e ]}])
    end
  else (Continue, []).

(** Lines 144-162: the read and what follows.  It is entered with
    [keyboard_connected] true. *)
Definition read_and_dispatch (k : KeyboardRemote) (a : answers)
  : ending * loop_state * list action :=
  match read_one_result a with
  | ReadRaises x =>
      if is_IOError x then
        (Continue, mkLoopState k false,
         [ReadOne (dev k);
          Log DEBUG (LStr "KeyboardRemote: keyboard disconnected, %s")
                    [LStr (device_descriptor k)]])
      else (Raised x, mkLoopState k true, [ReadOne (dev k)])
  | ReadNothing => (Continue, mkLoopState k true, [ReadOne (dev k)])
  | ReadEvent e =>
      match dispatch k a e with
      | (r, t) => (r, mkLoopState k true, ReadOne (dev k) :: t)
      end
  end.

(** Lines 137-141, up to the point where the acquisition is decided. *)
Definition reconnect_prefix (k : KeyboardRemote) : list action :=
  [Log DEBUG (LStr "KeyboardRemote: keyboard re-connected, %s")
             [LStr (device_descriptor k)];
   Sleep 1;
   Open (device_descriptor k)].

(** One pass over the body, after the loop condition let it in. *)
Definition body (s : loop_state) (a : answers)
  : ending * loop_state * list action :=
  let k := self s in
  if keyboard_connected s then read_and_dispatch k a
  else if negb (path_exists a) then (Continue, s, [])
  else
    match open_result a with
    | inl x => (Raised x, s, reconnect_prefix k)
    | inr newfd =>
        let d := mkInputDevice (device_descriptor k) newfd in
        let k' := set_dev k d in
        match grab_result a with
        | inl x => (Raised x, mkLoopState k' false, reconnect_prefix k ++ [Grab d])
        | inr _ =>
            let '(r, s', t) := read_and_dispatch k' a in
            (r, s', reconnect_prefix k ++ Grab d :: t)
        end
    end.

(** ** The loop (line 126) and [run] (lines 118-162) *)

(** How far a run got on a finite script of answers. *)
Inductive status : Type :=
| Running
| Exited
| Failed (x : exn).

Fixpoint loop (s : loop_state) (script : list answers)
  : status * loop_state * list action :=
  match script with
  | [] => (Running, s, [])
  | a :: rest =>
      if stopped_isSet a then (Exited, s, [])
      else
        match body s a with
        | (Continue, s', t) =>
            let '(r, s'', t') := loop s' rest in (r, s'', t ++ t')
        | (Raised x, s', t) => (Failed x, s', t)
        end
  end.

(** [run]: the debug line, the first grab, then the loop. *)
Definition run (k : KeyboardRemote) (first_grab : exn + unit)
    (script : list answers) : status * loop_state * list action :=
  let started :=
    [Log DEBUG (LStr "KeyboardRemote interface started for %s") [LDev (dev k)];
     Grab (dev k)] in
  match first_grab with
  | inl x => (Failed x, mkLoopState k false, started)
  | inr _ =>
      let '(r, s, t) := loop (mkLoopState k true) script in (r, s, started ++ t)
  end.

(** ** Construction and [setup] (lines 65-116) *)

(** The file system and the device layer as [setup] finds them.
    [os_listdir] is what [os.listdir] does: the entries of the folder,
    or the exception it raises when the folder is not there. *)
Record host : Type := mkHost {
  os_path_exists : string -> bool;
  os_listdir : string -> exn + list string;
  InputDevice_open : string -> exn + Z
}.

(** [KeyboardRemote.__init__] (lines 107-116). *)
Definition __init__ (h : host) (descriptor : string) (kv : option Z)
  : (exn + KeyboardRemote) * list action :=
  match InputDevice_open h descriptor with
  | inl x => (inl x, [Open descriptor])
  | inr newfd =>
      (inr {| dev := mkInputDevice descriptor newfd;
              key_value := kv;
              device_descriptor := descriptor |},
       [Open descriptor])
  end.

Definition id_folder : string := "/dev/input/by-id/".

Definition newline : string := String (Ascii.ascii_of_nat 10) EmptyString.

Definition descriptor_message : string :=
  String.append "A device_descriptor must be defined. Possible descriptors are %s:"
    (String.append newline "%s").

(** Lines 70-76: the error line and the bare [return].  The listing is
    an argument of the log call and is evaluated before it: when it
    raises, nothing is logged and the exception leaves [setup]. *)
Definition refuse (h : host)
  : (exn + pyval) * option KeyboardRemote * list action :=
  match os_listdir h id_folder with
  | inl x => (inl x, None, [])
  | inr names =>
      (inr PyNone, None,
       [Log ERROR (LStr descriptor_message) [LStr id_folder; LNames names]])
  end.

(** [setup(hass, config)]: what it returns or raises, the object it
    built if any, and what it did. *)
Definition setup (h : host) (config : gmap string (gmap string string))
  : (exn + pyval) * option KeyboardRemote * list action :=
  match config !! DOMAIN with
  | None => (inl AttributeError, None, [])
  | Some config =>
      match config !! DEVICE_DESCRIPTOR with
      | None => refuse h
      | Some descriptor =>
          if bool_decide (descriptor = EmptyString)
             || negb (os_path_exists h descriptor)
          then refuse h
          else
            let kv := KEY_VALUE !! default "key_up"%string (config !! TYPE) in
            match __init__ h descriptor kv with
            | (inl x, t) => (inl x, None, t)
            | (inr keyboard_remote, t) =>
                (inr (PyBool true), Some keyboard_remote,
                 t ++ [ListenOnce EVENT_HOMEASSISTANT_START _start_keyboard_remote;
                       ListenOnce EVENT_HOMEASSISTANT_STOP _stop_keyboard_remote])
            end
      end
  end.

(** ** Sample values *)

Definition sample_dev : InputDevice := mkInputDevice "/dev/input/by-id/foo" 7.

Definition sample_remote : KeyboardRemote :=
  {| dev := sample_dev; key_value := Some 0;
     device_descriptor := "/dev/input/by-id/foo" |}.

Definition set_dev_key (k : KeyboardRemote) (kv : option Z) : KeyboardRemote :=
  {| dev := dev k; key_value := kv; device_descriptor := device_descriptor k |}.

Definition quiet : answers :=
  {| stopped_isSet := false; path_exists := true;
     open_result := inr 8; grab_result := inr tt;
     read_one_result := ReadNothing; categorize_result := inr tt |}.

Definition key_event (code value : Z) : answers :=
  {| stopped_isSet := false; path_exists := true;
     open_result := inr 8; grab_result := inr tt;
     read_one_result := ReadEvent (mkInputEvent EV_KEY code value);
     categorize_result := inr tt |}.

Definition stop_now : answers :=
  {| stopped_isSet := true; path_exists := true;
     open_result := inr 8; grab_result := inr tt;
     read_one_result := ReadEvent (mkInputEvent EV_KEY 107 0);
     categorize_result := inr tt |}.

Definition unplugged : answers :=
  {| stopped_isSet := false; path_exists := false;
     open_result := inl IOError; grab_result := inl IOError;
     read_one_result := ReadRaises IOError; categorize_result := inr tt |}.

Definition open_rejected : answers :=
  {| stopped_isSet := false; path_exists := true;
     open_result := inl IOError; grab_result := inr tt;
     read_one_result := ReadNothing; categorize_result := inr tt |}.

Definition grab_rejected : answers :=
  {| stopped_isSet := false; path_exists := true;
     open_result := inr 8; grab_result := inl IOError;
     read_one_result := ReadNothing; categorize_result := inr tt |}.

(** A matching key event whose code evdev 0.6.1 has no name for. *)
Definition unnamed_key : answers :=
  {| stopped_isSet := false; path_exists := true;
     open_result := inr 8; grab_result := inr tt;
     read_one_result := ReadEvent (mkInputEvent EV_KEY 84 0);
     categorize_result := inl KeyError |}.

Definition sample_config (descriptor : string) : gmap string (gmap string string) :=
  {[ DOMAIN := {[ DEVICE_DESCRIPTOR := descriptor ]} ]}.

(** A host on which only [/dev/input/by-id/foo] exists and can be opened. *)
Definition sample_host : host :=
  {| os_path_exists := fun p => bool_decide (p = "/dev/input/by-id/foo"%string);
     os_listdir := fun _ => inr ["foo"%string];
     InputDevice_open := fun p =>
       if bool_decide (p = "/dev/input/by-id/foo"%string) then inr 7 else inl IOError |}.

(** ** The configuration schema (lines 56-62) *)

(** The schema of the [keyboard_remote] entry, on an entry whose values
    are strings (on which [cv.string] changes nothing):
    [device_descriptor] is required; [type] is optional, defaults to
    ['key_up'] and must be one of the three names; the entry's schema
    does not allow other keys.  The result is the validated entry, with
    the default filled in. *)
Definition domain_schema (c : gmap string string) : option (gmap string string) :=
  match c !! DEVICE_DESCRIPTOR with
  | None => None
  | Some descriptor =>
      let type := default "key_up"%string (c !! TYPE) in
      if bool_decide (type ∈ TYPES)
         && bool_decide (dom c ⊆ ({[ DEVICE_DESCRIPTOR; TYPE ]} : gset string))
      then Some (<[ TYPE := type ]> c)
      else None
  end.

(** [CONFIG_SCHEMA]: the entry under [DOMAIN] is validated when there
    is one; every other entry passes as it is ([extra=vol.ALLOW_EXTRA]). *)
Definition CONFIG_SCHEMA (config : gmap string (gmap string string))
  : option (gmap string (gmap string string)) :=
  match config !! DOMAIN with
  | None => Some config
  | Some c =>
      match domain_schema c with
      | None => None
      | Some c' => Some (<[ DOMAIN := c' ]> config)
      end
  end.

(** ** Reading traces *)

(** The key code a notification carries. *)
Definition fired_code (x : action) : option Z :=
  match x with
  | Fire _ event_data => event_data !! KEY_CODE
  | _ => None
  end.

(** The key codes fired along a trace, in the order they were fired. *)
Definition fired_codes (t : list action) : list Z := omap fired_code t.

(** The key code of the event [a] holds, when that event passes the
    test of line 157: the code a pass fires if it reads the event and
    [categorize] returns. *)
Definition accepted_code (k : KeyboardRemote) (a : answers) : option Z :=
  match read_one_result a with
  | ReadEvent e => if accepts k e then Some (ev_code e) else None
  | _ => None
  end.

Definition is_listen (x : action) : bool :=
  match x with ListenOnce _ _ => true | _ => false end.

(** The flag is not set and the descriptor is absent. *)
Definition absent (a : answers) : Prop :=
  stopped_isSet a = false ∧ path_exists a = false.

(** An action that touches a device touches the node [p]. *)
Definition on_node (p : string) (x : action) : Prop :=
  match x with
  | Open q => q = p
  | Grab d | ReadOne d | Ungrab d | Close d => fn d = p
  | _ => True
  end.

(** The debug line of line 148. *)
Definition is_disconnected_log (x : action) : bool :=
  match x with
  | Log DEBUG (LStr msg) _ =>
      bool_decide (msg = "KeyboardRemote: keyboard disconnected, %s"%string)
  | _ => false
  end.

#[global] Instance InputDevice_eq_dec : EqDecision InputDevice.
Proof. solve_decision. Defined.

(** Every read of a trace is on the device grabbed last before it;
    [cur] is the device grabbed last before the trace starts. *)
Fixpoint reads_follow_grab (cur : option InputDevice) (t : list action) : bool :=
  match t with
  | [] => true
  | Grab d :: t' => reads_follow_grab (Some d) t'
  | ReadOne d :: t' => bool_decide (cur = Some d) && reads_follow_grab cur t'
  | _ :: t' => reads_follow_grab cur t'
  end.

(** The device grabbed last once a trace is over. *)
Fixpoint last_grabbed (cur : option InputDevice) (t : list action)
  : option InputDevice :=
  match t with
  | [] => cur
  | Grab d :: t' => last_grabbed (Some d) t'
  | _ :: t' => last_grabbed cur t'
  end.

(** A pass of the steady state: the flag is not set and neither the
    read nor [categorize] raises. *)
Definition steady (a : answers) : Prop :=
  stopped_isSet a = false
  ∧ (∀ x : exn, read_one_result a ≠ ReadRaises x)
  ∧ categorize_result a = inr tt.

(** A pass on which nothing but an [IOError] of the read can go wrong. *)
Definition absorbable (a : answers) : Prop :=
  acquire_error a = None
  ∧ (∀ x : exn, read_one_result a = ReadRaises x → is_IOError x = true)
  ∧ categorize_result a = inr tt.

(** A host without [/dev/input/by-id/]: no path exists, nothing can be
    listed or opened. *)
Definition bare_host : host :=
  {| os_path_exists := fun _ => false;
     os_listdir := fun _ => inl IOError;
     InputDevice_open := fun _ => inl IOError |}.

(** ** Small facts used throughout *)

Lemma KEY_VALUE_types (m : string) :
  m ∈ TYPES →
  (m = "key_up"%string ∧ KEY_VALUE !! m = Some 0)
  ∨ (m = "key_down"%string ∧ KEY_VALUE !! m = Some 1)
  ∨ (m = "key_hold"%string ∧ KEY_VALUE !! m = Some 2).
Proof.
  unfold TYPES. rewrite !elem_of_cons, elem_of_nil.
  intros [-> | [-> | [-> | []]]]; [left | right; left | right; right];
    split; reflexivity.
Qed.

(** Go through the members of a trace that is written out. *)
Ltac member_cases Hp :=
  first
    [ apply elem_of_cons in Hp as [Hp | Hp];
      [ try discriminate Hp; try (injection Hp as ->; reflexivity)
      | member_cases Hp ]
    | solve [inversion Hp] ].

Lemma accepts_iff (k : KeyboardRemote) (e : InputEvent) (v : Z) :
  key_value k = Some v →
  small_int v = true →
  accepts k e = bool_decide (ev_type e = EV_KEY ∧ ev_value e = v).
Proof.
  intros Hk Hv. unfold accepts. rewrite Hk, bool_decide_and. f_equal.
  destruct (decide (ev_value e = v)) as [E | N].
  - rewrite E, Hv, !bool_decide_eq_true_2 by reflexivity. reflexivity.
  - rewrite (bool_decide_eq_false_2 (Some v = Some (ev_value e))) by congruence.
    rewrite (bool_decide_eq_false_2 (ev_value e = v)) by exact N. reflexivity.
Qed.

Lemma body_connected (k : KeyboardRemote) (a : answers) :
  body (mkLoopState k true) a = read_and_dispatch k a.
Proof. reflexivity. Qed.

Lemma dispatch_length (k : KeyboardRemote) (a : answers) (e : InputEvent) :
  (length (dispatch k a e).2 ≤ 2)%nat.
Proof.
  unfold dispatch. destruct (accepts k e); [destruct (categorize_result a) |];
    simpl; lia.
Qed.

Lemma read_and_dispatch_length (k : KeyboardRemote) (a : answers) :
  (length (read_and_dispatch k a).2 ≤ 3)%nat.
Proof.
  unfold read_and_dispatch.
  destruct (read_one_result a) as [e | | x]; simpl; try lia.
  - pose proof (dispatch_length k a e).
    destruct (dispatch k a e) as [r t]. simpl in *. lia.
  - destruct (is_IOError x); simpl; lia.
Qed.

(** ** The event filter *)

(** C1.  What a connected pass does with an event [e] it has read,
    under a configured type [m] whose number in [KEY_VALUE] is [v] (0
    for key_up, 1 for key_down, 2 for key_hold).  When [e] is not a key
    event with value [v] the pass does nothing besides the read.  When
    it is, [categorize(e)] is evaluated first: if that returns, the
    pass logs the event and fires [keyboard_remote_command_received]
    with the data [{key_code: e.code}]; if that raises, the pass fires
    nothing and the exception leaves the loop.  So a notification
    leaves the pass if and only if kind and value match and
    [categorize] does not raise: the claim's "if and only if kind and
    value match" fails exactly on the matching events [categorize]
    raises on. *)
Theorem filter_emits_iff_key_and_value
    (m : string) (k : KeyboardRemote) (a : answers) (e : InputEvent) :
  m ∈ TYPES →
  key_value k = KEY_VALUE !! m →
  read_one_result a = ReadEvent e →
  ∃ v : Z,
    KEY_VALUE !! m = Some v
    ∧ (m = "key_up"%string → v = 0)
    ∧ (m = "key_down"%string → v = 1)
    ∧ (m = "key_hold"%string → v = 2)
    ∧ body (mkLoopState k true) a =
        (if bool_decide (ev_type e = EV_KEY ∧ ev_value e = v)
         then
           match categorize_result a with
           | inl x => (Raised x, mkLoopState k true, [ReadOne (dev k)])
           | inr _ =>
               (Continue, mkLoopState k true,
                [ReadOne (dev k);
                 Log DEBUG (LCategorized e) [];
                 Fire "keyboard_remote_command_received"
                      {[ "key_code"%string := ev_code e ]}])
           end
         else (Continue, mkLoopState k true, [ReadOne (dev k)]))
    ∧ (∀ (n : string) (d : gmap string Z),
         Fire n d ∈ (body (mkLoopState k true) a).2
         ↔ (ev_type e = EV_KEY ∧ ev_value e = v)
           ∧ categorize_result a = inr tt
           ∧ n = "keyboard_remote_command_received"%string
           ∧ d = {[ "key_code"%string := ev_code e ]}).
Proof.
  intros Hm Hk Hr.
  assert (∃ v, KEY_VALUE !! m = Some v
               ∧ small_int v = true
               ∧ (m = "key_up"%string → v = 0)
               ∧ (m = "key_down"%string → v = 1)
               ∧ (m = "key_hold"%string → v = 2)) as (v & Hv & Hsm & H0 & H1 & H2).
  { destruct (KEY_VALUE_types m Hm) as [[-> E] | [[-> E] | [-> E]]];
      eexists; (split; [exact E |]); (split; [reflexivity |]);
      repeat split; intros; congruence. }
  exists v. repeat (split; [assumption |]).
  assert (body (mkLoopState k true) a =
          (if bool_decide (ev_type e = EV_KEY ∧ ev_value e = v)
           then
             match categorize_result a with
             | inl x => (Raised x, mkLoopState k true, [ReadOne (dev k)])
             | inr _ =>
                 (Continue, mkLoopState k true,
                  [ReadOne (dev k);
                   Log DEBUG (LCategorized e) [];
                   Fire "keyboard_remote_command_received"
                        {[ "key_code"%string := ev_code e ]}])
             end
           else (Continue, mkLoopState k true, [ReadOne (dev k)]))) as Hb.
  { rewrite body_connected. unfold read_and_dispatch, dispatch. rewrite Hr.
    rewrite (accepts_iff k e v) by congruence.
    destruct (bool_decide (ev_type e = EV_KEY ∧ ev_value e = v));
      [destruct (categorize_result a) |]; reflexivity. }
  split; [exact Hb |].
  intros n d. rewrite Hb.
  destruct (bool_decide (ev_type e = EV_KEY ∧ ev_value e = v)) eqn:Hacc.
  - apply bool_decide_eq_true in Hacc.
    destruct (categorize_result a) as [x | []]; cbn [snd].
    + split.
      * intros Hin. member_cases Hin.
      * intros (_ & Hc & _). discriminate Hc.
    + split.
      * intros Hin.
        apply elem_of_cons in Hin as [Hin | Hin]; [discriminate Hin |].
        apply elem_of_cons in Hin as [Hin | Hin]; [discriminate Hin |].
        apply list_elem_of_singleton in Hin. injection Hin as -> ->. auto.
      * intros (_ & _ & -> & ->). do 2 apply list_elem_of_further.
        apply list_elem_of_here.
  - apply bool_decide_eq_false in Hacc. cbn [snd]. split.
    + intros Hin. member_cases Hin.
    + intros (Hc & _). contradiction.
Qed.

Lemma filter_emits_iff_key_and_value_witness :
  body (mkLoopState sample_remote true) unnamed_key
  = (Raised KeyError, mkLoopState sample_remote true, [ReadOne sample_dev])
  ∧ ¬ Fire "keyboard_remote_command_received" {[ "key_code"%string := 84 ]}
      ∈ (body (mkLoopState sample_remote true) unnamed_key).2.
Proof.
  destruct (filter_emits_iff_key_and_value "key_up" sample_remote unnamed_key
              (mkInputEvent EV_KEY 84 0))
    as (v & Hv & _ & _ & _ & Hbody & Hfire).
  - unfold TYPES. apply list_elem_of_here.
  - reflexivity.
  - reflexivity.
  - assert (v = 0) as -> by (vm_compute in Hv; congruence).
    split; [exact Hbody |].
    intros Hin. apply Hfire in Hin as (_ & Hc & _). discriminate Hc.
Defined.

(** ** Facts about whole passes and runs *)

Lemma count_app (p : action → bool) (t u : list action) :
  count p (t ++ u) = (count p t + count p u)%nat.
Proof. unfold count. by rewrite filter_app, length_app. Qed.

Lemma count_cons (p : action → bool) (x : action) (t : list action) :
  count p (x :: t) = ((if p x then 1 else 0) + count p t)%nat.
Proof.
  unfold count. rewrite filter_cons.
  destruct (p x); destruct (decide _); simpl; congruence.
Qed.

Lemma count_zero (p : action → bool) (t : list action) :
  Forall (λ x, p x = false) t → count p t = 0%nat.
Proof.
  unfold count. induction 1 as [| x t Hx _ IH]; [reflexivity |].
  rewrite filter_cons. destruct (decide (p x = true)); [congruence | exact IH].
Qed.

(** Keep one component of what [read_and_dispatch_actions] gives. *)
Ltac keep_from H :=
  eapply Forall_impl; [exact H |];
  simpl; intros ? (? & ? & ? & ?); assumption.

Lemma dispatch_only_logs_and_fires
    (k : KeyboardRemote) (a : answers) (e : InputEvent) :
  Forall (λ x, is_open x = false ∧ is_grab x = false ∧ is_sleep x = false
               ∧ is_read x = false ∧ is_release x = false) (dispatch k a e).2.
Proof.
  unfold dispatch. destruct (accepts k e); [destruct (categorize_result a) |];
    repeat constructor.
Qed.

Lemma read_and_dispatch_actions (k : KeyboardRemote) (a : answers) :
  Forall (λ x, is_open x = false ∧ is_grab x = false ∧ is_sleep x = false
               ∧ is_release x = false) (read_and_dispatch k a).2.
Proof.
  unfold read_and_dispatch.
  destruct (read_one_result a) as [e | | x]; simpl.
  - pose proof (dispatch_only_logs_and_fires k a e) as Hd.
    destruct (dispatch k a e) as [r t]. cbn [snd] in *.
    constructor; [repeat constructor |].
    eapply Forall_impl; [exact Hd |].
    simpl. intros y (? & ? & ? & ? & ?). auto.
  - repeat constructor.
  - destruct (is_IOError x); repeat constructor.
Qed.

Lemma body_length (s : loop_state) (a : answers) :
  (length (body s a).2 ≤ 7)%nat.
Proof.
  unfold body. destruct (keyboard_connected s).
  - pose proof (read_and_dispatch_length (self s) a). lia.
  - destruct (path_exists a); simpl; [| lia].
    destruct (open_result a) as [x | newfd]; simpl; [lia |].
    destruct (grab_result a) as [x | u]; simpl; [lia |].
    pose proof (read_and_dispatch_length
                  (set_dev (self s) (mkInputDevice (device_descriptor (self s)) newfd)) a)
      as Hl.
    destruct (read_and_dispatch _ a) as [[r s'] t]. simpl in *. lia.
Qed.

Lemma body_sleeps_once (s : loop_state) (a : answers) :
  (count is_sleep (body s a).2 ≤ 1)%nat.
Proof.
  unfold body. destruct (keyboard_connected s).
  - rewrite count_zero; [lia |].
    keep_from (read_and_dispatch_actions (self s) a).
  - destruct (path_exists a); cbn [negb snd]; [| rewrite count_zero; [lia | constructor]].
    unfold reconnect_prefix.
    destruct (open_result a) as [x | newfd]; cbn [snd];
      [rewrite !count_cons; cbn [is_sleep]; rewrite count_zero; [lia | constructor] |].
    destruct (grab_result a) as [x | u]; cbn [snd app];
      [rewrite !count_cons; cbn [is_sleep]; rewrite count_zero; [lia | constructor] |].
    pose proof (read_and_dispatch_actions
                  (set_dev (self s) (mkInputDevice (device_descriptor (self s)) newfd)) a)
      as Hl.
    destruct (read_and_dispatch _ a) as [[r s'] t]. cbn [snd app] in *.
    rewrite !count_cons, (count_zero is_sleep t); [cbn [is_sleep]; lia |].
    keep_from Hl.
Qed.

(** The loop stops at the first pass that finds the flag set: what
    comes later in the script is never asked for. *)
Lemma loop_stops_at_flag (pre : list answers) :
  ∀ (s : loop_state) (a : answers) (post : list answers),
    stopped_isSet a = true →
    loop s (pre ++ a :: post) =
      (match (loop s pre).1.1 with Running => Exited | r => r end,
       (loop s pre).1.2, (loop s pre).2).
Proof.
  induction pre as [| b pre IH]; intros s a post Ha; simpl.
  - rewrite Ha. reflexivity.
  - destruct (stopped_isSet b); [reflexivity |].
    destruct (body s b) as [[[| x] s'] t]; [| reflexivity].
    rewrite (IH s' a post Ha).
    destruct (loop s' pre) as [[r s''] t']. simpl.
    rewrite ?app_nil_r. reflexivity.
Qed.

(** ** Cancellation *)

(** C3.  The flag is looked at before every pass, in either state.  A
    pass that finds it set ends the loop on the spot: whatever the loop
    had done and reached on the passes before ([pre]), nothing is added
    to it (so no notification follows), the state is the one it had,
    the run is over, and nothing later in the script is consulted.  A
    pass that started before the flag was set is bounded: it performs
    at most seven actions, one of them at most a one-second sleep. *)
Theorem cancellation_ends_the_loop
    (s : loop_state) (pre : list answers) (a : answers) (post : list answers) :
  stopped_isSet a = true →
  loop s (a :: post) = (Exited, s, [])
  ∧ (loop s (pre ++ a :: post)).1.1 ≠ Running
  ∧ (loop s (pre ++ a :: post)).1.2 = (loop s pre).1.2
  ∧ (loop s (pre ++ a :: post)).2 = (loop s pre).2
  ∧ loop s (pre ++ a :: post) = loop s (pre ++ [a])
  ∧ (∀ (s' : loop_state) (b : answers),
       (length (body s' b).2 ≤ 7)%nat ∧ (count is_sleep (body s' b).2 ≤ 1)%nat).
Proof.
  intros Ha. split; [simpl; rewrite Ha; reflexivity |].
  rewrite (loop_stops_at_flag pre s a post Ha).
  rewrite (loop_stops_at_flag pre s a [] Ha). simpl.
  repeat split.
  - destruct (loop s pre).1.1; discriminate.
  - apply body_length.
  - apply body_sleeps_once.
Qed.

Lemma cancellation_ends_the_loop_witness :
  loop (mkLoopState sample_remote false) (stop_now :: [key_event 30 0])
    = (Exited, mkLoopState sample_remote false, [])
  ∧ (loop (mkLoopState sample_remote false)
       ([unplugged; quiet] ++ stop_now :: [key_event 30 0])).1.1 ≠ Running
  ∧ (loop (mkLoopState sample_remote false)
       ([unplugged; quiet] ++ stop_now :: [key_event 30 0])).1.2
    = (loop (mkLoopState sample_remote false) [unplugged; quiet]).1.2
  ∧ (loop (mkLoopState sample_remote false)
       ([unplugged; quiet] ++ stop_now :: [key_event 30 0])).2
    = (loop (mkLoopState sample_remote false) [unplugged; quiet]).2
  ∧ loop (mkLoopState sample_remote false)
       ([unplugged; quiet] ++ stop_now :: [key_event 30 0])
    = loop (mkLoopState sample_remote false) ([unplugged; quiet] ++ [stop_now])
  ∧ (∀ (s' : loop_state) (b : answers),
       (length (body s' b).2 ≤ 7)%nat ∧ (count is_sleep (body s' b).2 ≤ 1)%nat).
Proof.
  apply (cancellation_ends_the_loop (mkLoopState sample_remote false)
           [unplugged; quiet] stop_now [key_event 30 0]).
  reflexivity.
Defined.

(** ** Disconnection *)

(** C4.  In the connected state, a pass whose read raises [IOError]
    ends normally with [keyboard_connected] false; it has done the read
    and one debug line and fired nothing; the loop goes on from the
    disconnected state with the rest of the script.  In no state does
    an [IOError] of the read leave the body: a pass that raises never
    got as far as the read. *)
Theorem read_ioerror_disconnects
    (k : KeyboardRemote) (a : answers) (rest : list answers) :
  stopped_isSet a = false →
  read_one_result a = ReadRaises IOError →
  body (mkLoopState k true) a =
    (Continue, mkLoopState k false,
     [ReadOne (dev k);
      Log DEBUG (LStr "KeyboardRemote: keyboard disconnected, %s")
                [LStr (device_descriptor k)]])
  ∧ count is_fire (body (mkLoopState k true) a).2 = 0%nat
  ∧ loop (mkLoopState k true) (a :: rest) =
      ((loop (mkLoopState k false) rest).1,
       [ReadOne (dev k);
        Log DEBUG (LStr "KeyboardRemote: keyboard disconnected, %s")
                  [LStr (device_descriptor k)]]
       ++ (loop (mkLoopState k false) rest).2)
  ∧ (∀ (s s' : loop_state) (x : exn) (t : list action),
       body s a = (Raised x, s', t) → count is_read t = 0%nat).
Proof.
  intros Hs Hr.
  assert (body (mkLoopState k true) a =
    (Continue, mkLoopState k false,
     [ReadOne (dev k);
      Log DEBUG (LStr "KeyboardRemote: keyboard disconnected, %s")
                [LStr (device_descriptor k)]])) as Hb.
  { rewrite body_connected. unfold read_and_dispatch. rewrite Hr. reflexivity. }
  split; [exact Hb |]. split; [rewrite Hb; reflexivity |]. split.
  - cbn [loop]. rewrite Hs, Hb.
    destruct (loop (mkLoopState k false) rest) as [[r s''] t']. reflexivity.
  - intros s s' x t. unfold body, read_and_dispatch. rewrite Hr. simpl.
    destruct (keyboard_connected s); [discriminate |].
    destruct (path_exists a); simpl; [| discriminate].
    destruct (open_result a) as [y | newfd].
    + intros [= _ _ <-]. reflexivity.
    + destruct (grab_result a) as [y | u].
      * intros [= _ _ <-]. reflexivity.
      * discriminate.
Qed.

Lemma read_ioerror_disconnects_witness :
  loop (mkLoopState sample_remote true) (unplugged :: [quiet; key_event 30 0]) =
    ((loop (mkLoopState sample_remote false) [quiet; key_event 30 0]).1,
     [ReadOne sample_dev;
      Log DEBUG (LStr "KeyboardRemote: keyboard disconnected, %s")
                [LStr "/dev/input/by-id/foo"]]
     ++ (loop (mkLoopState sample_remote false) [quiet; key_event 30 0]).2).
Proof.
  apply (read_ioerror_disconnects sample_remote unplugged [quiet; key_event 30 0]);
    reflexivity.
Defined.

(** ** Reconnection *)

(** C5.  A pass in the disconnected state does nothing at all while
    the descriptor is absent.  When the descriptor is there it logs,
    sleeps one second and only then opens the device: its trace starts
    with exactly these three actions, holds one open, one sleep and at
    most one grab.  When open and grab succeed, [keyboard_connected]
    is set and the rest of the pass is the connected pass on the new
    device, read and filter included; unless that read raises, or
    [categorize] does on what was read, the pass ends connected. *)
Theorem reconnect_after_settle_delay (s : loop_state) (a : answers) :
  keyboard_connected s = false →
  (path_exists a = false → body s a = (Continue, s, []))
  ∧ (path_exists a = true →
     (∃ t : list action,
        (body s a).2 =
          [Log DEBUG (LStr "KeyboardRemote: keyboard re-connected, %s")
                     [LStr (device_descriptor (self s))];
           Sleep 1;
           Open (device_descriptor (self s))] ++ t
        ∧ count is_open t = 0%nat ∧ count is_sleep t = 0%nat
        ∧ (count is_grab t ≤ 1)%nat)
     ∧ (∀ newfd : Z,
          open_result a = inr newfd →
          grab_result a = inr tt →
          let d := mkInputDevice (device_descriptor (self s)) newfd in
          let connected := mkLoopState (set_dev (self s) d) true in
          body s a =
            ((body connected a).1,
             [Log DEBUG (LStr "KeyboardRemote: keyboard re-connected, %s")
                        [LStr (device_descriptor (self s))];
              Sleep 1;
              Open (device_descriptor (self s));
              Grab d] ++ (body connected a).2)
          ∧ ((∀ x : exn, read_one_result a ≠ ReadRaises x) →
             categorize_result a = inr tt →
             (body s a).1 = (Continue, connected)))).
Proof.
  intros Hs. destruct s as [k c]. simpl in Hs. subst c. cbn [self].
  split.
  { intros He. unfold body. cbn [keyboard_connected]. rewrite He. reflexivity. }
  intros He. split.
  - unfold body. cbn [keyboard_connected self]. rewrite He. cbn [negb].
    unfold reconnect_prefix.
    destruct (open_result a) as [x | newfd].
    + exists []. repeat split; rewrite ?count_zero; auto; constructor.
    + destruct (grab_result a) as [x | u].
      * eexists. split; [reflexivity |].
        rewrite !count_cons. cbn [is_open is_sleep is_grab].
        rewrite !count_zero by constructor. repeat split; lia.
      * pose proof (read_and_dispatch_actions
                      (set_dev k (mkInputDevice (device_descriptor k) newfd)) a) as Hl.
        destruct (read_and_dispatch _ a) as [[r s'] t]. cbn [snd] in *.
        eexists. split; [reflexivity |].
        rewrite !count_cons. cbn [is_open is_sleep is_grab].
        rewrite !count_zero;
          try keep_from Hl.
        repeat split; lia.
  - intros newfd Ho Hg. cbv zeta.
    rewrite body_connected. unfold body. cbn [keyboard_connected self].
    rewrite He, Ho, Hg. cbn [negb].
    destruct (read_and_dispatch _ a) as [[r s'] t] eqn:Hrd. cbn [fst snd].
    split; [reflexivity |].
    intros Hx Hc. unfold read_and_dispatch, dispatch in Hrd. rewrite Hc in Hrd.
    destruct (read_one_result a) as [e | | x].
    + destruct (accepts _ e); injection Hrd as <- <- _; reflexivity.
    + injection Hrd as <- <- _. reflexivity.
    + exfalso. exact (Hx x eq_refl).
Qed.

Lemma reconnect_after_settle_delay_witness :
  body (mkLoopState sample_remote false) quiet =
    (Continue,
     mkLoopState (set_dev sample_remote (mkInputDevice "/dev/input/by-id/foo" 8)) true,
     [Log DEBUG (LStr "KeyboardRemote: keyboard re-connected, %s")
                [LStr "/dev/input/by-id/foo"];
      Sleep 1;
      Open "/dev/input/by-id/foo";
      Grab (mkInputDevice "/dev/input/by-id/foo" 8);
      ReadOne (mkInputDevice "/dev/input/by-id/foo" 8)]).
Proof.
  destruct (reconnect_after_settle_delay (mkLoopState sample_remote false) quiet eq_refl)
    as (_ & Hthere).
  destruct (Hthere eq_refl) as (_ & Hok).
  destruct (Hok 8 eq_refl eq_refl) as (Hbody & _).
  rewrite Hbody. reflexivity.
Defined.

(** ** A failed re-acquisition *)

(** C2, as stated, fails.  Disconnected, descriptor back, the open
    rejected: the pass does not end normally and the loop is over with
    the [IOError], although the next answers would have let a second
    attempt succeed. *)
Lemma failed_reacquire_ends_the_loop :
  keyboard_connected (mkLoopState sample_remote false) = false
  ∧ path_exists open_rejected = true
  ∧ acquire_error open_rejected = Some IOError
  ∧ acquire_error quiet = None
  ∧ loop (mkLoopState sample_remote false) [open_rejected; quiet; quiet] =
      (Failed IOError, mkLoopState sample_remote false,
       [Log DEBUG (LStr "KeyboardRemote: keyboard re-connected, %s")
                  [LStr "/dev/input/by-id/foo"];
        Sleep 1;
        Open "/dev/input/by-id/foo"])
  ∧ ¬ (∃ (s' : loop_state) (t : list action),
         body (mkLoopState sample_remote false) open_rejected = (Continue, s', t)).
Proof.
  repeat split; try reflexivity.
  intros (s' & t & H). discriminate H.
Qed.

(** C2, amended.  In the disconnected state with the descriptor back,
    an exception of the open or of the grab is not handled: it ends
    the loop and reaches the caller of [run], whatever the script held
    next.  [keyboard_connected] is still false at that point, the one
    open was made after the sleep, and nothing was read or fired. *)
Theorem failed_reacquire_propagates
    (s : loop_state) (a : answers) (x : exn) :
  keyboard_connected s = false →
  stopped_isSet a = false →
  path_exists a = true →
  acquire_error a = Some x →
  ∃ (s' : loop_state) (t : list action),
    (∀ rest : list answers, loop s (a :: rest) = (Failed x, s', t))
    ∧ keyboard_connected s' = false
    ∧ count is_open t = 1%nat
    ∧ count is_sleep t = 1%nat
    ∧ count is_read t = 0%nat
    ∧ count is_fire t = 0%nat.
Proof.
  intros Hc Hs He Ha. unfold acquire_error in Ha.
  destruct (open_result a) as [y | newfd] eqn:Ho.
  - injection Ha as ->. exists s, (reconnect_prefix (self s)). split.
    + intros rest. cbn [loop]. rewrite Hs. unfold body. rewrite Hc, He, Ho.
      reflexivity.
    + repeat split; auto.
  - destruct (grab_result a) as [y | u] eqn:Hg; [| discriminate].
    injection Ha as ->.
    eexists _, _. split.
    + intros rest. cbn [loop]. rewrite Hs. unfold body. rewrite Hc, He, Ho, Hg.
      reflexivity.
    + repeat split; auto.
Qed.

Lemma failed_reacquire_propagates_witness :
  ∃ (s' : loop_state) (t : list action),
    (∀ rest : list answers,
       loop (mkLoopState sample_remote false) (grab_rejected :: rest)
       = (Failed IOError, s', t))
    ∧ keyboard_connected s' = false
    ∧ count is_open t = 1%nat
    ∧ count is_sleep t = 1%nat
    ∧ count is_read t = 0%nat
    ∧ count is_fire t = 0%nat.
Proof.
  apply (failed_reacquire_propagates (mkLoopState sample_remote false)
           grab_rejected IOError); reflexivity.
Defined.

(** ** What is held at exit *)

(** After a pass that ends normally the object holds the device it
    held before, and the pass has grabbed, opened and given back
    nothing; or it holds a device the pass has grabbed, and nothing of
    the kind has happened since that grab. *)
Lemma body_held (s s' : loop_state) (a : answers) (t : list action) :
  body s a = (Continue, s', t) →
  (dev (self s') = dev (self s)
   ∧ Forall (λ x, is_release x = false ∧ is_grab x = false ∧ is_open x = false) t)
  ∨ (∃ pre post : list action,
       t = pre ++ Grab (dev (self s')) :: post
       ∧ Forall (λ x, is_release x = false ∧ is_grab x = false ∧ is_open x = false)
           post).
Proof.
  unfold body. destruct (keyboard_connected s).
  - intros Hb. left.
    pose proof (read_and_dispatch_actions (self s) a) as Hact.
    rewrite Hb in Hact. cbn [snd] in Hact. split.
    + unfold read_and_dispatch in Hb.
      destruct (read_one_result a) as [e | | x];
        [destruct (dispatch (self s) a e) | | destruct (is_IOError x)];
        inversion Hb; subst; reflexivity.
    + eapply Forall_impl; [exact Hact |]. simpl. intros y (? & ? & ? & ?). auto.
  - destruct (path_exists a); cbn [negb].
    2: { intros [= <- <-]. left. split; [reflexivity | constructor]. }
    destruct (open_result a) as [x | newfd]; [discriminate |].
    destruct (grab_result a) as [x | u]; [discriminate |].
    pose proof (read_and_dispatch_actions
                  (set_dev (self s) (mkInputDevice (device_descriptor (self s)) newfd)) a)
      as Hact.
    destruct (read_and_dispatch _ a) as [[r s1] t1] eqn:Hrd. cbn [snd] in Hact.
    intros [= -> <- <-]. right.
    exists (reconnect_prefix (self s)), t1. split.
    + f_equal. f_equal. unfold read_and_dispatch in Hrd.
      destruct (read_one_result a) as [e | | x];
        [destruct (dispatch _ a e) | | destruct (is_IOError x)];
        inversion Hrd; subst; reflexivity.
    + eapply Forall_impl; [exact Hact |]. simpl. intros y (? & ? & ? & ?). auto.
Qed.

Lemma loop_held (script : list answers) :
  ∀ (s s' : loop_state) (t : list action),
    loop s script = (Exited, s', t) →
    (dev (self s') = dev (self s)
     ∧ Forall (λ x, is_release x = false ∧ is_grab x = false ∧ is_open x = false) t)
    ∨ (∃ pre post : list action,
         t = pre ++ Grab (dev (self s')) :: post
         ∧ Forall (λ x, is_release x = false ∧ is_grab x = false ∧ is_open x = false)
             post).
Proof.
  induction script as [| a rest IH]; intros s s' t; cbn [loop]; [discriminate |].
  destruct (stopped_isSet a).
  { intros [= <- <-]. left. split; [reflexivity | constructor]. }
  destruct (body s a) as [[[| x] s1] t1] eqn:Hb; [| discriminate].
  destruct (loop s1 rest) as [[r s2] t2] eqn:Hl.
  intros [= -> <- <-].
  destruct (IH _ _ _ Hl) as [(E & F) | (pre & post & -> & F)].
  - destruct (body_held _ _ _ _ Hb) as [(E' & F') | (pre' & post' & -> & F')].
    + left. split; [congruence | apply Forall_app; split; assumption].
    + right. exists pre', (post' ++ t2). split.
      * rewrite E, <- app_assoc. reflexivity.
      * apply Forall_app. split; assumption.
  - right. exists (t1 ++ pre), post. split; [| exact F].
    rewrite <- app_assoc. reflexivity.
Qed.

(** C6, as stated, fails.  A run that grabs the device and then finds
    the flag set returns with the grab as its last device action:
    nothing in its trace gives the device back.  The same in the
    disconnected state, where the trace is empty. *)
Lemma exit_releases_nothing :
  run sample_remote (inr tt) [stop_now] =
    (Exited, mkLoopState sample_remote true,
     [Log DEBUG (LStr "KeyboardRemote interface started for %s") [LDev sample_dev];
      Grab sample_dev])
  ∧ ¬ (∃ x : action,
         x ∈ (run sample_remote (inr tt) [stop_now]).2 ∧ is_release x = true)
  ∧ loop (mkLoopState sample_remote false) [stop_now] =
      (Exited, mkLoopState sample_remote false, []).
Proof.
  split; [reflexivity |]. split; [| reflexivity].
  intros (x & Hx & Hr). cbn in Hx.
  rewrite !elem_of_cons, elem_of_nil in Hx.
  destruct Hx as [-> | [-> | []]]; discriminate Hr.
Qed.

(** C6, amended.  When [run] exits on the flag, the device the object
    holds is not given back.  The pass that finds the flag set makes no
    call at all, in either state.  The device held at exit is one this
    run has grabbed, and since that grab the run has made no ungrab, no
    close, no other grab and no open: [run] returns with it still held
    and grabbed. *)
Theorem exit_keeps_the_device_grabbed
    (k : KeyboardRemote) (first_grab : exn + unit) (script : list answers) :
  (run k first_grab script).1.1 = Exited →
  (∃ pre post : list action,
     (run k first_grab script).2
     = pre ++ Grab (dev (self (run k first_grab script).1.2)) :: post
     ∧ Forall (λ x, is_release x = false ∧ is_grab x = false ∧ is_open x = false)
         post)
  ∧ ∀ (s : loop_state) (a : answers) (rest : list answers),
      stopped_isSet a = true → loop s (a :: rest) = (Exited, s, []).
Proof.
  intros He. split.
  - unfold run in *. destruct first_grab as [x | u]; [discriminate |].
    pose proof (loop_held script (mkLoopState k true)) as Hh.
    destruct (loop (mkLoopState k true) script) as [[r s] t]. cbn [fst snd] in *.
    subst r. destruct (Hh s t eq_refl) as [(E & F) | (pre & post & -> & F)].
    + exists [Log DEBUG (LStr "KeyboardRemote interface started for %s") [LDev (dev k)]], t.
      rewrite E. split; [reflexivity | exact F].
    + eexists (_ ++ pre), post. split; [| exact F].
      rewrite <- app_assoc. reflexivity.
  - intros s a rest Ha. cbn [loop]. rewrite Ha. reflexivity.
Qed.

Lemma exit_keeps_the_device_grabbed_witness :
  (∃ pre post : list action,
     (run sample_remote (inr tt) [unplugged; quiet; stop_now; quiet]).2
     = pre ++ Grab (mkInputDevice "/dev/input/by-id/foo" 8) :: post
     ∧ Forall (λ x, is_release x = false ∧ is_grab x = false ∧ is_open x = false)
         post)
  ∧ ∀ (s : loop_state) (a : answers) (rest : list answers),
      stopped_isSet a = true → loop s (a :: rest) = (Exited, s, []).
Proof.
  apply (exit_keeps_the_device_grabbed sample_remote (inr tt)
           [unplugged; quiet; stop_now; quiet]).
  reflexivity.
Defined.

(** ** Start-up *)

(** C7, as stated, fails.  On a host where the open succeeds, the
    object is constructed and [setup] returns [True] having grabbed
    nothing; the grab is the first thing [run] does, later, and its
    rejection ends [run], not the construction. *)
Lemma grab_is_not_part_of_construction :
  __init__ sample_host "/dev/input/by-id/foo" (Some 0) =
    (inr sample_remote, [Open "/dev/input/by-id/foo"])
  ∧ setup sample_host (sample_config "/dev/input/by-id/foo") =
      (inr (PyBool true), Some sample_remote,
       [Open "/dev/input/by-id/foo";
        ListenOnce EVENT_HOMEASSISTANT_START _start_keyboard_remote;
        ListenOnce EVENT_HOMEASSISTANT_STOP _stop_keyboard_remote])
  ∧ run sample_remote (inl IOError) [quiet] =
      (Failed IOError, mkLoopState sample_remote false,
       [Log DEBUG (LStr "KeyboardRemote interface started for %s") [LDev sample_dev];
        Grab sample_dev]).
Proof. repeat split; vm_compute; reflexivity. Qed.

(** C7, amended.  Construction performs the open and nothing else; a
    rejected open propagates out of the constructor and out of [setup],
    which then has built no object and subscribed to nothing.  The
    exclusive grab is made at the start of [run]; its rejection
    propagates out of [run] before the loop is entered, whatever the
    script. *)
Theorem startup_acquisition_failures
    (h : host) (config : gmap string (gmap string string))
    (c : gmap string string) (descriptor : string) (x : exn) :
  config !! DOMAIN = Some c →
  c !! DEVICE_DESCRIPTOR = Some descriptor →
  descriptor ≠ EmptyString →
  os_path_exists h descriptor = true →
  (∀ kv : option Z, (__init__ h descriptor kv).2 = [Open descriptor])
  ∧ (InputDevice_open h descriptor = inl x →
     (∀ kv : option Z, __init__ h descriptor kv = (inl x, [Open descriptor]))
     ∧ setup h config = (inl x, None, [Open descriptor]))
  ∧ (∀ (k : KeyboardRemote) (script : list answers),
       run k (inl x) script =
         (Failed x, mkLoopState k false,
          [Log DEBUG (LStr "KeyboardRemote interface started for %s") [LDev (dev k)];
           Grab (dev k)])).
Proof.
  intros Hd Hp Hne Hex. split; [| split].
  - intros kv. unfold __init__. destruct (InputDevice_open h descriptor); reflexivity.
  - intros Ho. split.
    + intros kv. unfold __init__. rewrite Ho. reflexivity.
    + unfold setup. rewrite Hd, Hp, Hex.
      rewrite bool_decide_eq_false_2 by exact Hne. cbn [orb negb].
      unfold __init__. rewrite Ho. reflexivity.
  - intros k script. reflexivity.
Qed.

Lemma startup_acquisition_failures_witness :
  setup (mkHost (λ _, true) (λ _, inr []) (λ _, inl IOError))
        (sample_config "/dev/input/by-id/foo")
  = (inl IOError, None, [Open "/dev/input/by-id/foo"]).
Proof.
  apply (startup_acquisition_failures
           (mkHost (λ _, true) (λ _, inr []) (λ _, inl IOError))
           (sample_config "/dev/input/by-id/foo")
           {[ DEVICE_DESCRIPTOR := "/dev/input/by-id/foo"%string ]}
           "/dev/input/by-id/foo" IOError);
    [reflexivity | reflexivity | discriminate | reflexivity | reflexivity].
Defined.

(** ** A missing descriptor *)

(** C9.  When the configured descriptor is absent, empty, or names a
    path that does not exist, [setup] builds no object, opens no
    device, subscribes to nothing and tries nothing again.  It first
    lists [/dev/input/by-id/]: when the listing returns, [setup] logs
    one error that carries the entries, and returns; when the listing
    raises, as it does where that folder is not there, [setup] logs
    nothing and the exception leaves it.  The one error log of the
    claim is missing in that case. *)
Theorem missing_descriptor_is_refused
    (h : host) (config : gmap string (gmap string string)) (c : gmap string string) :
  config !! DOMAIN = Some c →
  (∀ p : string,
     c !! DEVICE_DESCRIPTOR = Some p → p = EmptyString ∨ os_path_exists h p = false) →
  setup h config =
    match os_listdir h "/dev/input/by-id/" with
    | inr names =>
        (inr PyNone, None,
         [Log ERROR
            (LStr descriptor_message)
            [LStr "/dev/input/by-id/"; LNames names]])
    | inl x => (inl x, None, [])
    end
  ∧ (setup h config).1.2 = None
  ∧ count is_open (setup h config).2 = 0%nat
  ∧ (length (setup h config).2 ≤ 1)%nat.
Proof.
  intros Hd Hmiss.
  assert (setup h config = refuse h) as ->.
  { unfold setup. rewrite Hd.
    destruct (c !! DEVICE_DESCRIPTOR) as [p |]; [| reflexivity].
    destruct (Hmiss p eq_refl) as [-> | Hex].
    - reflexivity.
    - rewrite Hex. cbn [negb]. rewrite orb_true_r. reflexivity. }
  unfold refuse, id_folder.
  destruct (os_listdir h "/dev/input/by-id/") as [x | names]; cbn [fst snd length];
    repeat split; lia.
Qed.

Lemma missing_descriptor_is_refused_witness :
  setup bare_host (sample_config "/dev/input/by-id/bar") = (inl IOError, None, []).
Proof.
  apply (missing_descriptor_is_refused bare_host
           (sample_config "/dev/input/by-id/bar")
           {[ DEVICE_DESCRIPTOR := "/dev/input/by-id/bar"%string ]}).
  - reflexivity.
  - intros p Hp. right. reflexivity.
Defined.

(** C10.  [setup] returns [True] when the descriptor names an existing
    path and the object is constructed.  When the descriptor is missing
    it returns [None] from the bare [return] if the listing of
    [/dev/input/by-id/] has returned; where the listing raises, [setup]
    returns nothing and raises instead.  [None] is falsy, yet it is not
    [False] and does not compare equal to it. *)
Theorem setup_returns_true_or_none
    (h : host) (config : gmap string (gmap string string)) (c : gmap string string) :
  config !! DOMAIN = Some c →
  (∀ (p : string) (newfd : Z),
     c !! DEVICE_DESCRIPTOR = Some p →
     p ≠ EmptyString →
     os_path_exists h p = true →
     InputDevice_open h p = inr newfd →
     (setup h config).1.1 = inr (PyBool true)
     ∧ (setup h config).1.2 =
         Some {| dev := mkInputDevice p newfd;
                 key_value := KEY_VALUE !! default "key_up"%string (c !! TYPE);
                 device_descriptor := p |})
  ∧ ((∀ p : string,
        c !! DEVICE_DESCRIPTOR = Some p → p = EmptyString ∨ os_path_exists h p = false) →
     (setup h config).1.1 =
       match os_listdir h "/dev/input/by-id/" with
       | inr _ => inr PyNone
       | inl x => inl x
       end)
  ∧ truthy PyNone = false
  ∧ truthy (PyBool true) = true
  ∧ py_eq PyNone (PyBool false) = false
  ∧ PyNone ≠ PyBool false.
Proof.
  intros Hd. split; [| split].
  - intros p newfd Hp Hne Hex Ho. unfold setup. rewrite Hd, Hp, Hex.
    rewrite bool_decide_eq_false_2 by exact Hne. cbn [orb negb].
    unfold __init__. rewrite Ho. split; reflexivity.
  - intros Hmiss.
    assert (setup h config = refuse h) as ->.
    { unfold setup. rewrite Hd.
      destruct (c !! DEVICE_DESCRIPTOR) as [p |]; [| reflexivity].
      destruct (Hmiss p eq_refl) as [-> | Hex].
      + reflexivity.
      + rewrite Hex. cbn [negb]. rewrite orb_true_r. reflexivity. }
    unfold refuse, id_folder.
    destruct (os_listdir h "/dev/input/by-id/"); reflexivity.
  - repeat split. discriminate.
Qed.

Lemma setup_returns_true_or_none_witness :
  (setup sample_host (sample_config "/dev/input/by-id/foo")).1.1 = inr (PyBool true)
  ∧ (setup bare_host (sample_config "/dev/input/by-id/bar")).1.1 = inl IOError.
Proof.
  split.
  - destruct (setup_returns_true_or_none sample_host
                (sample_config "/dev/input/by-id/foo")
                {[ DEVICE_DESCRIPTOR := "/dev/input/by-id/foo"%string ]} eq_refl)
      as (Hok & _).
    destruct (Hok "/dev/input/by-id/foo"%string 7) as (Hret & _);
      [reflexivity | discriminate | reflexivity | reflexivity | exact Hret].
  - destruct (setup_returns_true_or_none bare_host
                (sample_config "/dev/input/by-id/bar")
                {[ DEVICE_DESCRIPTOR := "/dev/input/by-id/bar"%string ]} eq_refl)
      as (_ & Hnone & _).
    apply Hnone. intros p Hp. right. reflexivity.
Defined.

(** ** What a run keeps *)

Lemma accepts_set_dev (k : KeyboardRemote) (d : InputDevice) (e : InputEvent) :
  accepts (set_dev k d) e = accepts k e.
Proof. reflexivity. Qed.

Lemma accepted_code_key_value (k k' : KeyboardRemote) (a : answers) :
  key_value k' = key_value k → accepted_code k' a = accepted_code k a.
Proof. intros H. unfold accepted_code, accepts. rewrite H. reflexivity. Qed.

(** What one pass keeps of the object, and where it opens. *)
Lemma body_keeps (s : loop_state) (a : answers) :
  key_value (self (body s a).1.2) = key_value (self s)
  ∧ device_descriptor (self (body s a).1.2) = device_descriptor (self s)
  ∧ (fn (dev (self s)) = device_descriptor (self s) →
     fn (dev (self (body s a).1.2)) = device_descriptor (self (body s a).1.2))
  ∧ (∀ p : string, Open p ∈ (body s a).2 → p = device_descriptor (self s)).
Proof.
  unfold body, read_and_dispatch, dispatch, reconnect_prefix.
  destruct (keyboard_connected s).
  - destruct (read_one_result a) as [e | | x];
      [destruct (accepts (self s) e); [destruct (categorize_result a) |]
      | | destruct (is_IOError x)];
      cbn [fst snd self]; repeat split; auto;
      intros p Hp; member_cases Hp.
  - destruct (path_exists a); cbn [negb].
    2: { cbn [fst snd]. repeat split; auto. intros p Hp. inversion Hp. }
    destruct (open_result a) as [x | newfd].
    { cbn [fst snd]. repeat split; auto. intros p Hp. member_cases Hp. }
    destruct (grab_result a) as [x | u].
    { cbn [fst snd self app]. repeat split; auto. intros p Hp. member_cases Hp. }
    destruct (read_one_result a) as [e | | x];
      [destruct (accepts _ e); [destruct (categorize_result a) |]
      | | destruct (is_IOError x)];
      cbn [fst snd self app]; repeat split; auto;
      intros p Hp; member_cases Hp.
Qed.

(** X1.  A run never touches the configuration of the object: whatever
    the script, the state it reaches has the [key_value] and the
    [device_descriptor] it started with.  Every open of the run is on
    that descriptor, and when the device held at the start was opened on
    it, so is the device held at the end. *)
Theorem loop_keeps_the_configuration (script : list answers) (s : loop_state) :
  key_value (self (loop s script).1.2) = key_value (self s)
  ∧ device_descriptor (self (loop s script).1.2) = device_descriptor (self s)
  ∧ (fn (dev (self s)) = device_descriptor (self s) →
     fn (dev (self (loop s script).1.2))
     = device_descriptor (self (loop s script).1.2))
  ∧ (∀ p : string, Open p ∈ (loop s script).2 → p = device_descriptor (self s)).
Proof.
  revert s. induction script as [| a rest IH]; intros s; cbn [loop].
  { cbn [fst snd]. repeat split; auto. intros p Hp. inversion Hp. }
  destruct (stopped_isSet a).
  { cbn [fst snd]. repeat split; auto. intros p Hp. inversion Hp. }
  pose proof (body_keeps s a) as (Hk & Hd & Hf & Ho).
  destruct (body s a) as [[[| x] s1] t1]; cbn [fst snd] in *.
  2: { repeat split; auto. }
  specialize (IH s1) as (Hk' & Hd' & Hf' & Ho').
  destruct (loop s1 rest) as [[r s2] t2]. cbn [fst snd] in *.
  repeat split.
  - congruence.
  - congruence.
  - auto.
  - intros p Hp. apply elem_of_app in Hp as [Hp | Hp]; [auto |].
    rewrite (Ho' p Hp). exact Hd.
Qed.

Lemma loop_keeps_the_configuration_witness :
  fn (dev (self (loop (mkLoopState sample_remote true)
                   [unplugged; quiet; key_event 30 0]).1.2))
  = device_descriptor (self (loop (mkLoopState sample_remote true)
                              [unplugged; quiet; key_event 30 0]).1.2).
Proof.
  destruct (loop_keeps_the_configuration [unplugged; quiet; key_event 30 0]
              (mkLoopState sample_remote true)) as (_ & _ & Hfn & _).
  apply Hfn. reflexivity.
Defined.

(** ** Notifications along a run *)

Lemma fired_codes_app (t u : list action) :
  fired_codes (t ++ u) = fired_codes t ++ fired_codes u.
Proof. apply omap_app. Qed.

(** What the read part of a pass fires. *)
Lemma read_and_dispatch_fires (k : KeyboardRemote) (a : answers) :
  count is_read (read_and_dispatch k a).2 = 1%nat
  ∧ (((categorize_result a = inr tt → accepted_code k a = None)
      ∧ filter (λ x, is_fire x = true) (read_and_dispatch k a).2 = []
      ∧ fired_codes (read_and_dispatch k a).2 = [])
     ∨ (∃ c : Z,
          accepted_code k a = Some c
          ∧ filter (λ x, is_fire x = true) (read_and_dispatch k a).2
            = [Fire KEYBOARD_REMOTE_COMMAND_RECEIVED {[ KEY_CODE := c ]}]
          ∧ fired_codes (read_and_dispatch k a).2 = [c])).
Proof.
  unfold read_and_dispatch, accepted_code, dispatch.
  destruct (read_one_result a) as [e | | x]; cbn [snd].
  - destruct (accepts k e); [destruct (categorize_result a) as [y | u] |]; cbn [snd].
    + split; [reflexivity |]. left. repeat split; try reflexivity. discriminate.
    + split; [reflexivity |]. right. exists (ev_code e).
      repeat split; reflexivity.
    + split; [reflexivity |]. left. repeat split; reflexivity.
  - split; [reflexivity |]. left. repeat split; reflexivity.
  - destruct (is_IOError x); (split; [reflexivity |]); left;
      repeat split; reflexivity.
Qed.

(** What a pass fires: nothing, or the one notification of the event
    it read. *)
Lemma body_fires (s : loop_state) (a : answers) :
  (filter (λ x, is_fire x = true) (body s a).2 = []
   ∧ fired_codes (body s a).2 = [])
  ∨ (∃ c : Z,
       accepted_code (self s) a = Some c
       ∧ filter (λ x, is_fire x = true) (body s a).2
         = [Fire KEYBOARD_REMOTE_COMMAND_RECEIVED {[ KEY_CODE := c ]}]
       ∧ fired_codes (body s a).2 = [c]
       ∧ count is_read (body s a).2 = 1%nat).
Proof.
  unfold body. destruct (keyboard_connected s).
  - destruct (read_and_dispatch_fires (self s) a) as (Hr & [(_ & Hf & Hc) | (c & Ha & Hf & Hc)]).
    + left. split; assumption.
    + right. exists c. repeat split; assumption.
  - destruct (path_exists a); cbn [negb]; [| left; split; reflexivity].
    destruct (open_result a) as [x | newfd]; [left; split; reflexivity |].
    destruct (grab_result a) as [x | u]; [left; split; reflexivity |].
    destruct (read_and_dispatch_fires
                (set_dev (self s) (mkInputDevice (device_descriptor (self s)) newfd)) a)
      as (Hr & H).
    destruct (read_and_dispatch _ a) as [[r s'] t]. cbn [snd] in *.
    change (reconnect_prefix (self s) ++ Grab (mkInputDevice (device_descriptor (self s)) newfd) :: t)
      with ((reconnect_prefix (self s)
             ++ [Grab (mkInputDevice (device_descriptor (self s)) newfd)]) ++ t).
    rewrite filter_app, fired_codes_app, count_app.
    destruct H as [(_ & Hf & Hc) | (c & Ha & Hf & Hc)].
    + left. rewrite Hf, Hc. split; reflexivity.
    + right. exists c. rewrite Hf, Hc, Hr. repeat split; try reflexivity.
      exact Ha.
Qed.

(** X2.  Along any run, from any state, every notification carries the
    event name [keyboard_remote_command_received] and a payload whose
    only key is [key_code]; and there are never more notifications than
    reads: one read yields at most one notification. *)
Theorem notifications_are_well_formed (script : list answers) (s : loop_state) :
  (∀ (n : string) (d : gmap string Z),
     Fire n d ∈ (loop s script).2 →
     n = "keyboard_remote_command_received"%string
     ∧ ∃ c : Z, d = {[ "key_code"%string := c ]})
  ∧ (count is_fire (loop s script).2 ≤ count is_read (loop s script).2)%nat.
Proof.
  revert s. induction script as [| a rest IH]; intros s; cbn [loop].
  { split; [intros n d H; inversion H | reflexivity]. }
  destruct (stopped_isSet a).
  { split; [intros n d H; inversion H | reflexivity]. }
  assert ((∀ (n : string) (d : gmap string Z),
             Fire n d ∈ (body s a).2 →
             n = "keyboard_remote_command_received"%string
             ∧ ∃ c : Z, d = {[ "key_code"%string := c ]})
          ∧ (count is_fire (body s a).2 ≤ count is_read (body s a).2)%nat)
    as (Hwf & Hle).
  { destruct (body_fires s a) as [(Hf & _) | (c & _ & Hf & _ & Hr)].
    - split.
      + intros n d Hin.
        assert (Fire n d ∈ filter (λ x, is_fire x = true) (body s a).2) as Hin'
          by (apply list_elem_of_filter; split; [reflexivity | exact Hin]).
        rewrite Hf in Hin'. inversion Hin'.
      + unfold count at 1. rewrite Hf. cbn. lia.
    - split.
      + intros n d Hin.
        assert (Fire n d ∈ filter (λ x, is_fire x = true) (body s a).2) as Hin'
          by (apply list_elem_of_filter; split; [reflexivity | exact Hin]).
        rewrite Hf in Hin'. apply list_elem_of_singleton in Hin'.
        injection Hin' as -> ->. split; [reflexivity | exists c; reflexivity].
      + unfold count at 1. rewrite Hf, Hr. cbn. lia. }
  destruct (body s a) as [[[| x] s1] t1]; cbn [fst snd] in *.
  2: { split; assumption. }
  specialize (IH s1) as (Hwf' & Hle').
  destruct (loop s1 rest) as [[r s2] t2]. cbn [fst snd] in *.
  split.
  - intros n d Hin. apply elem_of_app in Hin as [Hin | Hin]; auto.
  - rewrite !count_app. lia.
Qed.

Lemma notifications_are_well_formed_witness :
  "keyboard_remote_command_received"%string = "keyboard_remote_command_received"%string
  ∧ ∃ c : Z, ({[ "key_code"%string := 107 ]} : gmap string Z) = {[ "key_code"%string := c ]}.
Proof.
  destruct (notifications_are_well_formed [key_event 107 0]
              (mkLoopState sample_remote true)) as (Hwf & _).
  apply (Hwf "keyboard_remote_command_received"%string {[ "key_code"%string := 107 ]}).
  cbn. do 2 apply list_elem_of_further. apply list_elem_of_here.
Defined.

Lemma omap_accepted_code (k k' : KeyboardRemote) (script : list answers) :
  key_value k' = key_value k →
  omap (accepted_code k') script = omap (accepted_code k) script.
Proof.
  intros H. induction script as [| a rest IH]; [reflexivity |].
  cbn [omap list_omap]. rewrite (accepted_code_key_value k k' a H).
  destruct (accepted_code k a); [f_equal |]; exact IH.
Qed.

(** The codes fired are a sublist of the codes the script offers. *)
Lemma loop_fired_sublist (script : list answers) (s : loop_state) :
  fired_codes (loop s script).2 `sublist_of` omap (accepted_code (self s)) script.
Proof.
  revert s. induction script as [| a rest IH]; intros s; cbn [loop].
  { apply sublist_nil_l. }
  destruct (stopped_isSet a); [apply sublist_nil_l |].
  pose proof (body_fires s a) as Hf.
  pose proof (body_keeps s a) as (Hk & _).
  destruct (body s a) as [[[| x] s1] t1]; cbn [fst snd] in *.
  - specialize (IH s1). rewrite (omap_accepted_code (self s) (self s1) rest Hk) in IH.
    destruct (loop s1 rest) as [[r s2] t2]. cbn [snd] in *.
    rewrite fired_codes_app. cbn [omap list_omap].
    destruct Hf as [(_ & ->) | (c & -> & _ & -> & _)]; cbn [app].
    + destruct (accepted_code (self s) a); [apply sublist_cons |]; exact IH.
    + apply sublist_skip. exact IH.
  - cbn [omap list_omap].
    destruct Hf as [(_ & ->) | (c & -> & _ & -> & _)].
    + apply sublist_nil_l.
    + apply sublist_skip, sublist_nil_l.
Qed.

(** Every notification of a run carries a key code. *)
Lemma loop_fire_count (script : list answers) (s : loop_state) :
  count is_fire (loop s script).2 = length (fired_codes (loop s script).2).
Proof.
  revert s. induction script as [| a rest IH]; intros s; cbn [loop];
    [reflexivity |].
  destruct (stopped_isSet a); [reflexivity |].
  assert (count is_fire (body s a).2 = length (fired_codes (body s a).2)) as Hb.
  { unfold count.
    destruct (body_fires s a) as [(-> & ->) | (c & _ & -> & -> & _)]; reflexivity. }
  destruct (body s a) as [[[| x] s1] t1]; cbn [fst snd] in *; [| exact Hb].
  specialize (IH s1). destruct (loop s1 rest) as [[r s2] t2]. cbn [snd] in *.
  rewrite count_app, fired_codes_app, length_app. lia.
Qed.

(** X3.  Notifications leave in the order the events were read.  The
    key codes fired along a run, from any state, are taken in order from
    the codes of the matching events the script holds: none is invented,
    duplicated or moved, and each notification carries exactly one of
    them.  (An event the script holds for a pass that does not read,
    or that the run does not reach, is the only thing that can be
    missing.) *)
Theorem notifications_keep_the_read_order (script : list answers) (s : loop_state) :
  fired_codes (loop s script).2 `sublist_of` omap (accepted_code (self s)) script
  ∧ count is_fire (loop s script).2 = length (fired_codes (loop s script).2).
Proof.
  split.
  - apply loop_fired_sublist.
  - apply loop_fire_count.
Qed.

(** A pass in which neither the read nor [categorize] raises ends
    normally and connected. *)
Lemma read_and_dispatch_steady (k : KeyboardRemote) (a : answers) :
  (∀ x : exn, read_one_result a ≠ ReadRaises x) →
  categorize_result a = inr tt →
  (read_and_dispatch k a).1 = (Continue, mkLoopState k true).
Proof.
  intros Hr Hc. unfold read_and_dispatch, dispatch. rewrite Hc.
  destruct (read_one_result a) as [e | | x].
  - destruct (accepts k e); reflexivity.
  - reflexivity.
  - exfalso. exact (Hr x eq_refl).
Qed.

(** X4.  In the steady state the order is exact.  Connected, with the
    flag never set and neither a read nor [categorize] raising, the run
    is still going after the whole script, connected and on the same
    device; it made one read per pass and no open, sleep or grab; and
    the key codes it fired are exactly the codes of the events of the
    script that pass the test of line 157, in the script's order. *)
Theorem steady_run_fires_every_match (k : KeyboardRemote) (script : list answers) :
  Forall steady script →
  (loop (mkLoopState k true) script).1 = (Running, mkLoopState k true)
  ∧ fired_codes (loop (mkLoopState k true) script).2 = omap (accepted_code k) script
  ∧ count is_read (loop (mkLoopState k true) script).2 = length script
  ∧ count is_open (loop (mkLoopState k true) script).2 = 0%nat
  ∧ count is_sleep (loop (mkLoopState k true) script).2 = 0%nat
  ∧ count is_grab (loop (mkLoopState k true) script).2 = 0%nat.
Proof.
  induction 1 as [| a rest (Hs & Hr & Hc) _ IH]; cbn [loop]; [repeat split |].
  rewrite Hs, body_connected.
  pose proof (read_and_dispatch_fires k a) as (Hrd & Hf).
  pose proof (read_and_dispatch_actions k a) as Hact.
  pose proof (read_and_dispatch_steady k a Hr Hc) as Hst.
  destruct (read_and_dispatch k a) as [[r s1] t1]. cbn [fst snd] in *.
  injection Hst as -> ->.
  destruct IH as (IH1 & IH2 & IH3 & IH4 & IH5 & IH6).
  destruct (loop (mkLoopState k true) rest) as [[r s2] t2]. cbn [fst snd] in *.
  injection IH1 as -> ->.
  rewrite fired_codes_app, !count_app, IH2, IH3, IH4, IH5, IH6, Hrd.
  rewrite !(count_zero _ t1) by keep_from Hact.
  repeat split. cbn [omap list_omap].
  destruct Hf as [(Hn & _ & ->) | (c & -> & _ & ->)]; [| reflexivity].
  rewrite (Hn Hc). reflexivity.
Qed.

Lemma steady_run_fires_every_match_witness :
  fired_codes (loop (mkLoopState sample_remote true)
                 [key_event 107 0; quiet; key_event 30 1; key_event 31 0]).2
  = omap (accepted_code sample_remote)
      [key_event 107 0; quiet; key_event 30 1; key_event 31 0].
Proof.
  apply (steady_run_fires_every_match sample_remote
           [key_event 107 0; quiet; key_event 30 1; key_event 31 0]).
  repeat (constructor;
          [split; [reflexivity | split; [intros x; discriminate | reflexivity]] |]).
  constructor.
Defined.

(** ** When [setup] builds the object *)

Lemma refuse_builds_nothing (h : host) : (refuse h).1.2 = None.
Proof. unfold refuse. destruct (os_listdir h id_folder); reflexivity. Qed.

(** [setup] has built an object only one way. *)
Lemma setup_built
    (h : host) (config : gmap string (gmap string string)) (k : KeyboardRemote) :
  (setup h config).1.2 = Some k →
  ∃ (c : gmap string string) (p : string) (newfd : Z),
    config !! DOMAIN = Some c
    ∧ c !! DEVICE_DESCRIPTOR = Some p
    ∧ p ≠ EmptyString
    ∧ os_path_exists h p = true
    ∧ InputDevice_open h p = inr newfd
    ∧ k = {| dev := mkInputDevice p newfd;
             key_value := KEY_VALUE !! default "key_up"%string (c !! TYPE);
             device_descriptor := p |}
    ∧ setup h config =
        (inr (PyBool true), Some k,
         [Open p;
          ListenOnce EVENT_HOMEASSISTANT_START _start_keyboard_remote;
          ListenOnce EVENT_HOMEASSISTANT_STOP _stop_keyboard_remote]).
Proof.
  unfold setup. intros Hs.
  destruct (config !! DOMAIN) as [c |] eqn:Hd; [| discriminate].
  destruct (c !! DEVICE_DESCRIPTOR) as [p |] eqn:Hp.
  2: { rewrite refuse_builds_nothing in Hs. discriminate. }
  destruct (bool_decide (p = EmptyString)) eqn:He; cbn [orb] in Hs.
  { rewrite refuse_builds_nothing in Hs. discriminate. }
  destruct (os_path_exists h p) eqn:Hx; cbn [negb] in Hs.
  2: { rewrite refuse_builds_nothing in Hs. discriminate. }
  apply bool_decide_eq_false in He.
  unfold __init__ in *.
  destruct (InputDevice_open h p) as [x | newfd] eqn:Ho; [discriminate |].
  cbn [fst snd] in Hs. injection Hs as <-.
  exists c, p, newfd. cbn [orb negb]. repeat split; assumption.
Qed.

(** ** A type outside the three *)

Lemma KEY_VALUE_unknown (m : string) : m ∉ TYPES → KEY_VALUE !! m = None.
Proof.
  unfold TYPES, KEY_VALUE. rewrite !not_elem_of_cons. intros (H0 & H1 & H2 & _).
  rewrite !lookup_insert_ne by congruence. apply lookup_singleton_ne. congruence.
Qed.

Lemma omap_accepted_code_none (k : KeyboardRemote) (script : list answers) :
  key_value k = None → omap (accepted_code k) script = [].
Proof.
  intros H. induction script as [| a rest IH]; [reflexivity |].
  cbn [omap list_omap]. rewrite IH.
  unfold accepted_code, accepts. rewrite H.
  destruct (read_one_result a) as [e | | x]; try reflexivity.
  rewrite andb_comm. reflexivity.
Qed.

(** X5.  [setup] does not check the type it is given.  With a [type]
    that is none of the three names it still builds the object and
    returns what it would otherwise, but [KEY_VALUE.get] finds nothing,
    [key_value] is [None], and no run of that object ever fires a
    notification, whatever it reads. *)
Theorem unknown_type_never_fires
    (h : host) (config : gmap string (gmap string string)) (c : gmap string string)
    (m : string) (r : exn + pyval) (k : KeyboardRemote) (t : list action) :
  config !! DOMAIN = Some c →
  c !! TYPE = Some m →
  m ∉ TYPES →
  setup h config = (r, Some k, t) →
  r = inr (PyBool true)
  ∧ key_value k = None
  ∧ ∀ (first_grab : exn + unit) (script : list answers),
      count is_fire (run k first_grab script).2 = 0%nat.
Proof.
  intros Hd Ht Hm Hs.
  assert (r = inr (PyBool true) ∧ key_value k = None) as (Hr & Hk).
  { destruct (setup_built h config k) as (c' & p & newfd & Hd' & _ & _ & _ & _ & Hk & Hs');
      [rewrite Hs; reflexivity |].
    rewrite Hs in Hs'. injection Hs' as -> _.
    rewrite Hd in Hd'. injection Hd' as <-.
    rewrite Ht in Hk. cbn [from_option id] in Hk.
    rewrite (KEY_VALUE_unknown m Hm) in Hk. subst k. split; reflexivity. }
  repeat split; try assumption.
  intros first_grab script. unfold run.
  destruct first_grab as [x | u]; [reflexivity |].
  pose proof (loop_fire_count script (mkLoopState k true)) as Hc.
  pose proof (loop_fired_sublist script (mkLoopState k true)) as Hsub.
  cbn [self] in Hsub. rewrite (omap_accepted_code_none k script Hk) in Hsub.
  apply sublist_nil_r in Hsub.
  destruct (loop (mkLoopState k true) script) as [[r' s'] t']. cbn [snd] in *.
  rewrite count_app, Hc, Hsub. reflexivity.
Qed.

Lemma unknown_type_never_fires_witness :
  count is_fire
    (run (set_dev_key sample_remote None) (inr tt) [key_event 107 0; key_event 107 1]).2
  = 0%nat.
Proof.
  apply (unknown_type_never_fires sample_host
           {[ DOMAIN := {[ DEVICE_DESCRIPTOR := "/dev/input/by-id/foo"%string;
                           TYPE := "key_press"%string ]} ]}
           {[ DEVICE_DESCRIPTOR := "/dev/input/by-id/foo"%string;
              TYPE := "key_press"%string ]}
           "key_press"
           (inr (PyBool true))
           (set_dev_key sample_remote None)
           [Open "/dev/input/by-id/foo";
            ListenOnce EVENT_HOMEASSISTANT_START _start_keyboard_remote;
            ListenOnce EVENT_HOMEASSISTANT_STOP _stop_keyboard_remote]).
  - reflexivity.
  - reflexivity.
  - unfold TYPES. rewrite !not_elem_of_cons.
    repeat split; [discriminate .. | apply not_elem_of_nil].
  - reflexivity.
Defined.

(** ** What [setup] leaves behind *)

(** X6.  Leaving [type] out is the same as asking for ['key_up']:
    [setup] returns the same, builds the same object and does the same
    on a configuration without [type] as on that configuration with
    [type] set to ['key_up']. *)
Theorem type_defaults_to_key_up
    (h : host) (config : gmap string (gmap string string)) (c : gmap string string) :
  config !! DOMAIN = Some c →
  c !! TYPE = None →
  setup h (<[ DOMAIN := <[ TYPE := "key_up"%string ]> c ]> config) = setup h config.
Proof.
  intros Hd Ht. unfold setup.
  rewrite lookup_insert_eq, Hd.
  rewrite lookup_insert_ne by discriminate.
  rewrite lookup_insert_eq, Ht. reflexivity.
Qed.

Lemma type_defaults_to_key_up_witness :
  setup sample_host
    (<[ DOMAIN := <[ TYPE := "key_up"%string ]>
                    {[ DEVICE_DESCRIPTOR := "/dev/input/by-id/foo"%string ]} ]>
       (sample_config "/dev/input/by-id/foo"))
  = setup sample_host (sample_config "/dev/input/by-id/foo").
Proof.
  apply (type_defaults_to_key_up sample_host (sample_config "/dev/input/by-id/foo")
           {[ DEVICE_DESCRIPTOR := "/dev/input/by-id/foo"%string ]});
    reflexivity.
Defined.

(** X7.  [setup] subscribes to the host exactly when it returns [True],
    and that is exactly when it has built the object.  Then it has
    opened the descriptor of that object, once, and subscribed
    [_start_keyboard_remote] to the start event and
    [_stop_keyboard_remote] to the stop event, in this order, and
    nothing else.  In every other case it has subscribed to nothing.
    In no case does it grab, read, sleep or fire, and it never returns
    [False]. *)
Theorem setup_subscribes_iff_true
    (h : host) (config : gmap string (gmap string string)) :
  ((setup h config).1.1 = inr (PyBool true) ↔ is_Some (setup h config).1.2)
  ∧ (∀ k : KeyboardRemote,
       (setup h config).1.2 = Some k →
       (setup h config).2 =
         [Open (device_descriptor k);
          ListenOnce EVENT_HOMEASSISTANT_START _start_keyboard_remote;
          ListenOnce EVENT_HOMEASSISTANT_STOP _stop_keyboard_remote]
       ∧ fn (dev k) = device_descriptor k
       ∧ os_path_exists h (device_descriptor k) = true
       ∧ device_descriptor k ≠ EmptyString)
  ∧ ((setup h config).1.2 = None → count is_listen (setup h config).2 = 0%nat)
  ∧ count is_grab (setup h config).2 = 0%nat
  ∧ count is_read (setup h config).2 = 0%nat
  ∧ count is_sleep (setup h config).2 = 0%nat
  ∧ count is_fire (setup h config).2 = 0%nat
  ∧ (setup h config).1.1 ≠ inr (PyBool false).
Proof.
  unfold setup, refuse, __init__.
  destruct (os_listdir h id_folder) as [lx | names];
  (destruct (config !! DOMAIN) as [c |];
   [| cbn [fst snd]; repeat split; try discriminate; try reflexivity;
      intros [k Hk]; discriminate]);
  destruct (c !! DEVICE_DESCRIPTOR) as [p |].
  all: try (cbn [fst snd]; repeat split; try discriminate; try reflexivity;
            intros [k Hk]; discriminate).
  all: destruct (bool_decide (p = EmptyString)) eqn:He;
    [| destruct (os_path_exists h p) eqn:Hx]; cbn [orb negb].
  all: try (cbn [fst snd]; repeat split; try discriminate; try reflexivity;
            intros [k Hk]; discriminate).
  all: apply bool_decide_eq_false in He;
    destruct (InputDevice_open h p) as [x | newfd]; cbn [fst snd].
  all: try (repeat split; try discriminate; try reflexivity;
            intros [k Hk]; discriminate).
  all: (split; [split; [intros _; eexists; reflexivity | reflexivity] |]);
    (split;
     [intros k [= <-]; cbn [device_descriptor dev fn app];
      (split; [reflexivity |]); (split; [reflexivity |]); split; assumption |]);
    repeat split; try discriminate; reflexivity.
Qed.

Lemma setup_subscribes_iff_true_witness :
  (setup sample_host (sample_config "/dev/input/by-id/foo")).2 =
    [Open "/dev/input/by-id/foo";
     ListenOnce EVENT_HOMEASSISTANT_START _start_keyboard_remote;
     ListenOnce EVENT_HOMEASSISTANT_STOP _stop_keyboard_remote].
Proof.
  destruct (setup_subscribes_iff_true sample_host (sample_config "/dev/input/by-id/foo"))
    as (_ & Hbuilt & _).
  destruct (Hbuilt sample_remote eq_refl) as (Ht & _).
  exact Ht.
Defined.

(** ** How a run goes on and how it ends *)

(** X8.  While the device is away the loop only polls.  Disconnected,
    with the flag not set and the descriptor absent on every pass, the
    run does nothing at all, however long the script is: no log, no
    sleep, no open, no read; it is still running, in the state it
    started in. *)
Theorem absent_device_is_polled_silently (k : KeyboardRemote) (script : list answers) :
  Forall absent script →
  loop (mkLoopState k false) script = (Running, mkLoopState k false, []).
Proof.
  induction 1 as [| a rest [Hs He] _ IH]; cbn [loop]; [reflexivity |].
  rewrite Hs. unfold body. cbn [keyboard_connected]. rewrite He. cbn [negb].
  rewrite IH. reflexivity.
Qed.

Lemma absent_device_is_polled_silently_witness :
  loop (mkLoopState sample_remote false) [unplugged; unplugged; unplugged]
  = (Running, mkLoopState sample_remote false, []).
Proof.
  apply (absent_device_is_polled_silently sample_remote
           [unplugged; unplugged; unplugged]).
  repeat (constructor; [split; reflexivity |]). constructor.
Defined.

(** X9.  The loop returns only on the flag.  If no pass of the script
    finds the flag set, the run has not returned normally, from
    whatever state it started: it is still running, or an exception
    ended it. *)
Theorem loop_exits_only_on_the_flag (script : list answers) (s : loop_state) :
  Forall (λ a, stopped_isSet a = false) script →
  (loop s script).1.1 ≠ Exited.
Proof.
  intros H. revert s. induction H as [| a rest Hs _ IH]; intros s; cbn [loop].
  { discriminate. }
  rewrite Hs. destruct (body s a) as [[[| x] s1] t1]; [| discriminate].
  specialize (IH s1). destruct (loop s1 rest) as [[r s2] t2]. exact IH.
Qed.

Lemma loop_exits_only_on_the_flag_witness :
  (loop (mkLoopState sample_remote true) [unplugged; quiet; grab_rejected]).1.1 ≠ Exited.
Proof.
  apply (loop_exits_only_on_the_flag [unplugged; quiet; grab_rejected]
           (mkLoopState sample_remote true)).
  repeat (constructor; [reflexivity |]). constructor.
Defined.

Lemma read_and_dispatch_absorbs (k : KeyboardRemote) (a : answers) :
  (∀ x : exn, read_one_result a = ReadRaises x → is_IOError x = true) →
  categorize_result a = inr tt →
  ∀ y : exn, (read_and_dispatch k a).1.1 ≠ Raised y.
Proof.
  intros Hr Hc y. unfold read_and_dispatch, dispatch. rewrite Hc.
  destruct (read_one_result a) as [e | | z].
  - destruct (accepts k e); discriminate.
  - discriminate.
  - rewrite (Hr z eq_refl). discriminate.
Qed.

(** X10.  The loop absorbs the [IOError]s of the read.  If on every
    pass of the script the open and the grab would succeed, the read
    raises nothing but [IOError] and [categorize] does not raise, no
    exception ends the run, from whatever state it started: each
    disconnection is absorbed and each re-acquisition goes through. *)
Theorem loop_absorbs_read_errors (script : list answers) (s : loop_state) :
  Forall absorbable script →
  ∀ x : exn, (loop s script).1.1 ≠ Failed x.
Proof.
  intros H. revert s.
  induction H as [| a rest (Ha & Hr & Hc) _ IH]; intros s x; cbn [loop].
  { discriminate. }
  destruct (stopped_isSet a); [discriminate |].
  assert (∀ y, (body s a).1.1 ≠ Raised y) as Hb.
  { intros y. unfold body. unfold acquire_error in Ha.
    destruct (keyboard_connected s).
    - apply (read_and_dispatch_absorbs (self s) a Hr Hc).
    - destruct (path_exists a); cbn [negb]; [| discriminate].
      destruct (open_result a) as [z | newfd]; [discriminate |].
      destruct (grab_result a) as [z | u]; [discriminate |].
      pose proof (read_and_dispatch_absorbs
                    (set_dev (self s) (mkInputDevice (device_descriptor (self s)) newfd))
                    a Hr Hc y) as Hn.
      destruct (read_and_dispatch _ a) as [[r s1] t1]. exact Hn. }
  destruct (body s a) as [[[| y] s1] t1]; cbn [fst] in Hb.
  - specialize (IH s1 x). destruct (loop s1 rest) as [[r s2] t2]. exact IH.
  - exfalso. exact (Hb y eq_refl).
Qed.

Lemma loop_absorbs_read_errors_witness :
  (loop (mkLoopState sample_remote true)
     [{| stopped_isSet := false; path_exists := true;
         open_result := inr 8; grab_result := inr tt;
         read_one_result := ReadRaises IOError;
         categorize_result := inr tt |};
      quiet; key_event 30 0]).1.1 ≠ Failed IOError.
Proof.
  apply (loop_absorbs_read_errors
           [{| stopped_isSet := false; path_exists := true;
               open_result := inr 8; grab_result := inr tt;
               read_one_result := ReadRaises IOError;
               categorize_result := inr tt |};
            quiet; key_event 30 0]
           (mkLoopState sample_remote true)).
  repeat (constructor;
          [split; [reflexivity
                  | split; [intros x [=]; subst; reflexivity | reflexivity]] |]).
  constructor.
Defined.

(** ** Re-opening the device *)

(** One pass: a sleep of one second for each open, and an open only in
    the disconnected state.  The last line says what a pass costs in
    disconnections: connected afterwards, a disconnected pass has
    opened once; disconnected afterwards, a connected pass has logged
    the disconnection. *)
Lemma body_opens (s : loop_state) (a : answers) :
  count is_sleep (body s a).2 = count is_open (body s a).2
  ∧ (count is_grab (body s a).2 ≤ count is_open (body s a).2)%nat
  ∧ (∀ n : Z, Sleep n ∈ (body s a).2 → n = 1)
  ∧ (count is_open (body s a).2
     + match (body s a).1.1 with
       | Continue => if keyboard_connected (body s a).1.2 then 0 else 1
       | Raised _ => 0
       end
     ≤ count is_disconnected_log (body s a).2
       + if keyboard_connected s then 0 else 1)%nat.
Proof.
  unfold body, read_and_dispatch, dispatch, reconnect_prefix.
  destruct (keyboard_connected s) eqn:Hc.
  - destruct (read_one_result a) as [e | | x];
      [destruct (accepts (self s) e); [destruct (categorize_result a) |]
      | | destruct (is_IOError x)];
      cbn [fst snd keyboard_connected];
      (split; [reflexivity |]); (split; [vm_compute; lia |]);
      (split; [intros n Hp; member_cases Hp | vm_compute; lia]).
  - destruct (path_exists a); cbn [negb].
    2: { cbn [fst snd]. rewrite Hc. split; [reflexivity |].
         split; [vm_compute; lia |].
         split; [intros n Hp; inversion Hp | vm_compute; lia]. }
    destruct (open_result a) as [x | newfd].
    { cbn [fst snd]. split; [reflexivity |]. split; [vm_compute; lia |].
      split; [intros n Hp; member_cases Hp | vm_compute; lia]. }
    destruct (grab_result a) as [x | u].
    { cbn [fst snd app]. split; [reflexivity |]. split; [vm_compute; lia |].
      split; [intros n Hp; member_cases Hp | vm_compute; lia]. }
    destruct (read_one_result a) as [e | | x];
      [destruct (accepts _ e); [destruct (categorize_result a) |]
      | | destruct (is_IOError x)];
      cbn [fst snd app keyboard_connected];
      (split; [reflexivity |]); (split; [vm_compute; lia |]);
      (split; [intros n Hp; member_cases Hp | vm_compute; lia]).
Qed.

Lemma loop_opens (script : list answers) (s : loop_state) :
  count is_sleep (loop s script).2 = count is_open (loop s script).2
  ∧ (count is_grab (loop s script).2 ≤ count is_open (loop s script).2)%nat
  ∧ (∀ n : Z, Sleep n ∈ (loop s script).2 → n = 1)
  ∧ (count is_open (loop s script).2
     + match (loop s script).1.1 with
       | Failed _ => 0
       | _ => if keyboard_connected (loop s script).1.2 then 0 else 1
       end
     ≤ count is_disconnected_log (loop s script).2
       + if keyboard_connected s then 0 else 1)%nat.
Proof.
  revert s. induction script as [| a rest IH]; intros s; cbn [loop].
  { cbn [fst snd]. split; [reflexivity |]. split; [reflexivity |].
    split; [intros n Hp; inversion Hp |].
    destruct (keyboard_connected s); vm_compute; lia. }
  destruct (stopped_isSet a).
  { cbn [fst snd]. split; [reflexivity |]. split; [reflexivity |].
    split; [intros n Hp; inversion Hp |].
    destruct (keyboard_connected s); vm_compute; lia. }
  pose proof (body_opens s a) as (Hs & Hg & Hn & Hle).
  destruct (body s a) as [[[| x] s1] t1]; cbn [fst snd] in *.
  2: { repeat split; assumption. }
  specialize (IH s1) as (Hs' & Hg' & Hn' & Hle').
  destruct (loop s1 rest) as [[r s2] t2]. cbn [fst snd] in *.
  rewrite !count_app. split; [lia |]. split; [lia |]. split.
  - intros n Hp. apply elem_of_app in Hp as [Hp | Hp]; auto.
  - lia.
Qed.

(** X11.  The settle delay is never skipped and the device is re-opened
    only after a disconnection.  Along any run of the loop every open
    comes with its own sleep, every sleep lasts one second, there is no
    grab without an open, and the opens are at most as many as the
    disconnections the loop has logged, plus one if it started
    disconnected. *)
Theorem reopens_follow_disconnections (script : list answers) (s : loop_state) :
  count is_sleep (loop s script).2 = count is_open (loop s script).2
  ∧ (count is_grab (loop s script).2 ≤ count is_open (loop s script).2)%nat
  ∧ (∀ n : Z, Sleep n ∈ (loop s script).2 → n = 1)
  ∧ (count is_open (loop s script).2
     ≤ count is_disconnected_log (loop s script).2
       + if keyboard_connected s then 0 else 1)%nat.
Proof.
  destruct (loop_opens script s) as (Hs & Hg & Hn & Hle).
  repeat split; try assumption. lia.
Qed.

Lemma reopens_follow_disconnections_witness :
  (1 : Z) = 1.
Proof.
  destruct (reopens_follow_disconnections [unplugged; quiet]
              (mkLoopState sample_remote true)) as (_ & _ & Hn & _).
  apply (Hn 1). cbn. do 3 apply list_elem_of_further. apply list_elem_of_here.
Defined.

(** ** Which device is read *)

Lemma reads_follow_grab_app (t u : list action) :
  ∀ cur : option InputDevice,
    reads_follow_grab cur (t ++ u)
    = reads_follow_grab cur t && reads_follow_grab (last_grabbed cur t) u.
Proof.
  induction t as [| x t IH]; intros cur; [reflexivity |].
  destruct x; cbn [app reads_follow_grab last_grabbed]; rewrite ?IH;
    try reflexivity.
  rewrite andb_assoc. reflexivity.
Qed.

Lemma last_grabbed_app (t u : list action) :
  ∀ cur : option InputDevice,
    last_grabbed cur (t ++ u) = last_grabbed (last_grabbed cur t) u.
Proof.
  induction t as [| x t IH]; intros cur; [reflexivity |].
  destruct x; cbn [app last_grabbed]; apply IH.
Qed.

Lemma reads_follow_grab_elem (t : list action) :
  ∀ (cur : option InputDevice) (d : InputDevice),
    reads_follow_grab cur t = true →
    ReadOne d ∈ t →
    cur = Some d ∨ Grab d ∈ t.
Proof.
  induction t as [| x t IH]; intros cur d Hf Hin; [inversion Hin |].
  apply elem_of_cons in Hin as [Hx | Hin].
  - subst x. cbn [reads_follow_grab] in Hf.
    apply andb_true_iff in Hf as [Hf _].
    apply bool_decide_eq_true in Hf. left. exact Hf.
  - destruct x; cbn [reads_follow_grab] in Hf;
      try (destruct (IH cur d Hf Hin) as [E | G];
           [left; exact E | right; apply list_elem_of_further; exact G]).
    + destruct (IH (Some d0) d Hf Hin) as [E | G].
      * injection E as ->. right. apply list_elem_of_here.
      * right. apply list_elem_of_further. exact G.
    + apply andb_true_iff in Hf as [_ Hf].
      destruct (IH cur d Hf Hin) as [E | G];
        [left; exact E | right; apply list_elem_of_further; exact G].
Qed.

(** One pass reads the device the object holds, grabbed last. *)
Lemma body_reads_grabbed (s : loop_state) (a : answers) :
  reads_follow_grab (Some (dev (self s))) (body s a).2 = true
  ∧ last_grabbed (Some (dev (self s))) (body s a).2
    = Some (dev (self (body s a).1.2)).
Proof.
  unfold body, read_and_dispatch, dispatch, reconnect_prefix.
  destruct (keyboard_connected s).
  - destruct (read_one_result a) as [e | | x];
      [destruct (accepts (self s) e); [destruct (categorize_result a) |]
      | | destruct (is_IOError x)];
      cbn [fst snd self reads_follow_grab last_grabbed];
      rewrite !bool_decide_eq_true_2 by reflexivity; split; reflexivity.
  - destruct (path_exists a); cbn [negb]; [| split; reflexivity].
    destruct (open_result a) as [x | newfd]; [split; reflexivity |].
    destruct (grab_result a) as [x | u]; [split; reflexivity |].
    destruct (read_one_result a) as [e | | x];
      [destruct (accepts _ e); [destruct (categorize_result a) |]
      | | destruct (is_IOError x)];
      cbn [fst snd self app reads_follow_grab last_grabbed set_dev dev];
      rewrite !bool_decide_eq_true_2 by reflexivity; split; reflexivity.
Qed.

Lemma loop_reads_grabbed (script : list answers) :
  ∀ s : loop_state,
    reads_follow_grab (Some (dev (self s))) (loop s script).2 = true.
Proof.
  induction script as [| a rest IH]; intros s; cbn [loop]; [reflexivity |].
  destruct (stopped_isSet a); [reflexivity |].
  pose proof (body_reads_grabbed s a) as (Hf & Hl).
  destruct (body s a) as [[[| x] s1] t1]; cbn [fst snd] in *; [| exact Hf].
  specialize (IH s1). destruct (loop s1 rest) as [[r s2] t2]. cbn [snd] in *.
  rewrite reads_follow_grab_app, Hf, Hl, IH. reflexivity.
Qed.

(** X12.  [run] reads only what it has grabbed.  In the trace of any
    run every read is on the device grabbed last before it: the one of
    the first grab until a re-acquisition, then the re-acquired one.
    So no device is read before it is grabbed, and the device given up
    at a re-acquisition is never read again. *)
Theorem run_reads_the_grabbed_device
    (k : KeyboardRemote) (first_grab : exn + unit) (script : list answers) :
  reads_follow_grab None (run k first_grab script).2 = true
  ∧ ∀ d : InputDevice,
      ReadOne d ∈ (run k first_grab script).2 → Grab d ∈ (run k first_grab script).2.
Proof.
  assert (reads_follow_grab None (run k first_grab script).2 = true) as Hf.
  { unfold run. destruct first_grab as [x | u]; [reflexivity |].
    pose proof (loop_reads_grabbed script (mkLoopState k true)) as Hl.
    destruct (loop (mkLoopState k true) script) as [[r s] t]. cbn [snd self] in *.
    exact Hl. }
  split; [exact Hf |].
  intros d Hin.
  destruct (reads_follow_grab_elem _ None d Hf Hin) as [E | G];
    [discriminate | exact G].
Qed.

Lemma run_reads_the_grabbed_device_witness :
  Grab (mkInputDevice "/dev/input/by-id/foo" 8)
    ∈ (run sample_remote (inr tt) [unplugged; quiet]).2.
Proof.
  destruct (run_reads_the_grabbed_device sample_remote (inr tt) [unplugged; quiet])
    as (_ & Hin).
  apply Hin. cbn. do 8 apply list_elem_of_further. apply list_elem_of_here.
Defined.

(** ** The schema and [setup] *)

(** What the schema of the entry lets through. *)
Lemma domain_schema_accepts (c c' : gmap string string) :
  domain_schema c = Some c' →
  ∃ (descriptor m : string),
    c !! DEVICE_DESCRIPTOR = Some descriptor
    ∧ m = default "key_up"%string (c !! TYPE)
    ∧ m ∈ TYPES
    ∧ dom c ⊆ ({[ DEVICE_DESCRIPTOR; TYPE ]} : gset string)
    ∧ c' = <[ TYPE := m ]> c.
Proof.
  unfold domain_schema. intros H.
  destruct (c !! DEVICE_DESCRIPTOR) as [descriptor |]; [| discriminate].
  destruct (bool_decide (default "key_up"%string (c !! TYPE) ∈ TYPES)) eqn:Ht;
    [| discriminate].
  destruct (bool_decide (dom c ⊆ ({[ DEVICE_DESCRIPTOR; TYPE ]} : gset string))) eqn:Hd;
    [| discriminate].
  cbn [andb] in H. injection H as <-.
  apply bool_decide_eq_true in Ht, Hd.
  exists descriptor, (default "key_up"%string (c !! TYPE)). auto.
Qed.

Lemma domain_schema_fixpoint (c c' : gmap string string) :
  domain_schema c = Some c' → domain_schema c' = Some c'.
Proof.
  intros H. destruct (domain_schema_accepts c c' H) as (p & m & Hp & Hm & Ht & Hd & ->).
  unfold domain_schema.
  rewrite lookup_insert_ne by discriminate. rewrite Hp.
  rewrite lookup_insert_eq. cbn [from_option id].
  rewrite bool_decide_eq_true_2 by exact Ht.
  rewrite bool_decide_eq_true_2.
  2: { rewrite dom_insert_L. apply union_least; [| exact Hd].
       apply singleton_subseteq_l, elem_of_union. right.
       apply elem_of_singleton. reflexivity. }
  cbn [andb]. rewrite insert_insert_eq. reflexivity.
Qed.

(** X13.  The schema guards the filter.  On a configuration the schema
    has validated, whenever [setup] builds the object its [key_value]
    is the number [KEY_VALUE] gives one of the three type names, the
    name configured or ['key_up'] when none was; it is never [None].
    The descriptor is the one configured.  Validating once more
    changes nothing. *)
Theorem validated_configuration_sets_the_filter
    (h : host) (config config' : gmap string (gmap string string))
    (c : gmap string string) (k : KeyboardRemote) :
  config !! DOMAIN = Some c →
  CONFIG_SCHEMA config = Some config' →
  (setup h config').1.2 = Some k →
  (∃ (m : string) (v : Z),
     m ∈ TYPES
     ∧ m = default "key_up"%string (c !! TYPE)
     ∧ KEY_VALUE !! m = Some v
     ∧ key_value k = Some v
     ∧ (v = 0 ∨ v = 1 ∨ v = 2))
  ∧ c !! DEVICE_DESCRIPTOR = Some (device_descriptor k)
  ∧ CONFIG_SCHEMA config' = Some config'.
Proof.
  intros Hd Hv Hs. unfold CONFIG_SCHEMA in Hv. rewrite Hd in Hv.
  destruct (domain_schema c) as [c' |] eqn:Hc; [| discriminate].
  injection Hv as <-.
  pose proof (domain_schema_fixpoint c c' Hc) as Hfix.
  destruct (domain_schema_accepts c c' Hc) as (p & m & Hp & Hm & Ht & _ & ->).
  assert (key_value k = KEY_VALUE !! m ∧ device_descriptor k = p) as (Hk & Hdk).
  { destruct (setup_built h _ k Hs) as (c1 & p1 & newfd & Hd1 & Hp1 & _ & _ & _ & -> & _).
    rewrite lookup_insert_eq in Hd1. injection Hd1 as <-.
    rewrite lookup_insert_ne in Hp1 by discriminate. rewrite Hp in Hp1.
    injection Hp1 as <-. rewrite lookup_insert_eq. split; reflexivity. }
  split; [| split].
  - destruct (KEY_VALUE_types m Ht) as [[_ E] | [[_ E] | [_ E]]];
      eexists m, _; (repeat split; [exact Ht | exact Hm | exact E | congruence |]);
      auto.
  - congruence.
  - unfold CONFIG_SCHEMA. rewrite lookup_insert_eq, Hfix, insert_insert_eq.
    reflexivity.
Qed.

Lemma validated_configuration_sets_the_filter_witness :
  (∃ (m : string) (v : Z),
     m ∈ TYPES
     ∧ m = default "key_up"%string
             (({[ DEVICE_DESCRIPTOR := "/dev/input/by-id/foo"%string ]}
               : gmap string string) !! TYPE)
     ∧ KEY_VALUE !! m = Some v
     ∧ key_value sample_remote = Some v
     ∧ (v = 0 ∨ v = 1 ∨ v = 2))
  ∧ ({[ DEVICE_DESCRIPTOR := "/dev/input/by-id/foo"%string ]}
     : gmap string string) !! DEVICE_DESCRIPTOR
    = Some (device_descriptor sample_remote)
  ∧ CONFIG_SCHEMA
      (<[ DOMAIN := <[ TYPE := "key_up"%string ]>
                      {[ DEVICE_DESCRIPTOR := "/dev/input/by-id/foo"%string ]} ]>
         (sample_config "/dev/input/by-id/foo"))
    = Some (<[ DOMAIN := <[ TYPE := "key_up"%string ]>
                           {[ DEVICE_DESCRIPTOR := "/dev/input/by-id/foo"%string ]} ]>
              (sample_config "/dev/input/by-id/foo")).
Proof.
  apply (validated_configuration_sets_the_filter sample_host
           (sample_config "/dev/input/by-id/foo")
           (<[ DOMAIN := <[ TYPE := "key_up"%string ]>
                           {[ DEVICE_DESCRIPTOR := "/dev/input/by-id/foo"%string ]} ]>
              (sample_config "/dev/input/by-id/foo"))
           {[ DEVICE_DESCRIPTOR := "/dev/input/by-id/foo"%string ]}
           sample_remote).
  - reflexivity.
  - vm_compute. reflexivity.
  - vm_compute. reflexivity.
Defined.

(** ** The configured node and no other *)

Lemma body_on_node (s : loop_state) (a : answers) :
  fn (dev (self s)) = device_descriptor (self s) →
  Forall (on_node (device_descriptor (self s))) (body s a).2.
Proof.
  intros Hfn. unfold body, read_and_dispatch, dispatch, reconnect_prefix.
  destruct (keyboard_connected s).
  - destruct (read_one_result a) as [e | | x];
      [destruct (accepts (self s) e); [destruct (categorize_result a) |]
      | | destruct (is_IOError x)];
      cbn [snd]; repeat constructor; exact Hfn.
  - destruct (path_exists a); cbn [negb]; [| constructor].
    destruct (open_result a) as [x | newfd]; [repeat constructor |].
    destruct (grab_result a) as [x | u]; [repeat constructor |].
    destruct (read_one_result a) as [e | | x];
      [destruct (accepts _ e); [destruct (categorize_result a) |]
      | | destruct (is_IOError x)];
      cbn [snd app]; repeat constructor.
Qed.

Lemma loop_on_node (script : list answers) :
  ∀ s : loop_state,
    fn (dev (self s)) = device_descriptor (self s) →
    Forall (on_node (device_descriptor (self s))) (loop s script).2.
Proof.
  induction script as [| a rest IH]; intros s Hfn; cbn [loop]; [constructor |].
  destruct (stopped_isSet a); [constructor |].
  pose proof (body_on_node s a Hfn) as Hb.
  pose proof (body_keeps s a) as (_ & Hd & Hf & _).
  destruct (body s a) as [[[| x] s1] t1]; cbn [fst snd] in *; [| exact Hb].
  specialize (IH s1 (Hf Hfn)). rewrite Hd in IH.
  destruct (loop s1 rest) as [[r s2] t2]. cbn [snd] in *.
  apply Forall_app. split; assumption.
Qed.

(** X14.  The component touches the configured node and no other.
    When [setup] has built the object, the descriptor of the object is
    the configured one, and every open, grab and read, of [setup] and
    of any run of that object, re-acquisitions included, is on that
    node. *)
Theorem only_the_configured_node_is_touched
    (h : host) (config : gmap string (gmap string string)) (c : gmap string string)
    (r : exn + pyval) (k : KeyboardRemote) (t : list action) :
  config !! DOMAIN = Some c →
  setup h config = (r, Some k, t) →
  c !! DEVICE_DESCRIPTOR = Some (device_descriptor k)
  ∧ ∀ (first_grab : exn + unit) (script : list answers),
      Forall (on_node (device_descriptor k)) (t ++ (run k first_grab script).2).
Proof.
  intros Hd Hs.
  assert (c !! DEVICE_DESCRIPTOR = Some (device_descriptor k)
          ∧ fn (dev k) = device_descriptor k
          ∧ Forall (on_node (device_descriptor k)) t) as (Hp & Hfn & Ht).
  { destruct (setup_built h config k) as (c1 & p & newfd & Hd1 & Hp & _ & _ & _ & -> & Hs1);
      [rewrite Hs; reflexivity |].
    rewrite Hd in Hd1. injection Hd1 as <-.
    rewrite Hs in Hs1. injection Hs1 as _ ->.
    cbn [device_descriptor dev fn].
    repeat split; [exact Hp |]. repeat constructor. }
  split; [exact Hp |].
  intros first_grab script. apply Forall_app. split; [exact Ht |].
  unfold run. destruct first_grab as [x | u].
  - cbn [snd]. repeat constructor. exact Hfn.
  - pose proof (loop_on_node script (mkLoopState k true) Hfn) as Hl.
    destruct (loop (mkLoopState k true) script) as [[r' s'] t']. cbn [snd self] in *.
    repeat constructor; [exact Hfn | exact Hl].
Qed.

Lemma only_the_configured_node_is_touched_witness :
  ({[ DEVICE_DESCRIPTOR := "/dev/input/by-id/foo"%string ]} : gmap string string)
    !! DEVICE_DESCRIPTOR
  = Some (device_descriptor sample_remote)
  ∧ ∀ (first_grab : exn + unit) (script : list answers),
      Forall (on_node (device_descriptor sample_remote))
        ([Open "/dev/input/by-id/foo";
          ListenOnce EVENT_HOMEASSISTANT_START _start_keyboard_remote;
          ListenOnce EVENT_HOMEASSISTANT_STOP _stop_keyboard_remote]
         ++ (run sample_remote first_grab script).2).
Proof.
  apply (only_the_configured_node_is_touched sample_host
           (sample_config "/dev/input/by-id/foo")
           {[ DEVICE_DESCRIPTOR := "/dev/input/by-id/foo"%string ]}
           (inr (PyBool true)) sample_remote
           [Open "/dev/input/by-id/foo";
            ListenOnce EVENT_HOMEASSISTANT_START _start_keyboard_remote;
            ListenOnce EVENT_HOMEASSISTANT_STOP _stop_keyboard_remote]);
    reflexivity.
Defined.

(** ** Away and back *)

Lemma loop_skips_absent (k : KeyboardRemote) (idle rest : list answers) :
  Forall absent idle →
  loop (mkLoopState k false) (idle ++ rest) = loop (mkLoopState k false) rest.
Proof.
  induction 1 as [| a idle [Hs He] _ IH]; [reflexivity |].
  cbn [app loop]. rewrite Hs. unfold body. cbn [keyboard_connected].
  rewrite He. cbn [negb]. rewrite IH.
  destruct (loop (mkLoopState k false) rest) as [[r s] t]. reflexivity.
Qed.

(** X15.  Away and back.  Connected, a read that raises [IOError],
    then any number of passes with the descriptor absent, then a pass
    that finds it again and acquires it, and in which neither the read
    nor [categorize] raises, bring the loop back to the connected state
    with the same configuration and the newly opened device.  In between it has logged the disconnection, been silent
    while the device was away, logged the return, slept once, opened
    and grabbed once; the pass of the return already reads the new
    device and filters what it reads as a connected pass does. *)
Theorem disconnect_then_reconnect
    (k : KeyboardRemote) (lost : answers) (idle : list answers)
    (back : answers) (newfd : Z) :
  stopped_isSet lost = false →
  read_one_result lost = ReadRaises IOError →
  Forall absent idle →
  steady back →
  path_exists back = true →
  open_result back = inr newfd →
  grab_result back = inr tt →
  let d := mkInputDevice (device_descriptor k) newfd in
  loop (mkLoopState k true) (lost :: idle ++ [back]) =
    (Running, mkLoopState (set_dev k d) true,
     [ReadOne (dev k);
      Log DEBUG (LStr "KeyboardRemote: keyboard disconnected, %s")
                [LStr (device_descriptor k)];
      Log DEBUG (LStr "KeyboardRemote: keyboard re-connected, %s")
                [LStr (device_descriptor k)];
      Sleep 1;
      Open (device_descriptor k);
      Grab d]
     ++ (body (mkLoopState (set_dev k d) true) back).2).
Proof.
  intros Hs Hr Hidle (Hsb & Hrb & Hcb) He Ho Hg d. subst d.
  cbn [loop]. rewrite Hs, body_connected.
  unfold read_and_dispatch at 1. rewrite Hr. cbn [is_IOError].
  rewrite (loop_skips_absent k idle [back] Hidle).
  cbn [loop]. rewrite Hsb. rewrite body_connected.
  unfold body. cbn [keyboard_connected self]. rewrite He, Ho, Hg. cbn [negb].
  pose proof (read_and_dispatch_steady
                (set_dev k (mkInputDevice (device_descriptor k) newfd)) back Hrb Hcb)
    as Hst.
  destruct (read_and_dispatch _ back) as [[r s1] t1]. cbn [fst snd] in *.
  injection Hst as -> ->. cbn [app]. rewrite app_nil_r. reflexivity.
Qed.

Lemma disconnect_then_reconnect_witness :
  loop (mkLoopState sample_remote true)
    ({| stopped_isSet := false; path_exists := true;
        open_result := inr 8; grab_result := inr tt;
        read_one_result := ReadRaises IOError;
        categorize_result := inr tt |}
     :: [unplugged; unplugged] ++ [key_event 30 0]) =
    (Running,
     mkLoopState (set_dev sample_remote (mkInputDevice "/dev/input/by-id/foo" 8)) true,
     [ReadOne sample_dev;
      Log DEBUG (LStr "KeyboardRemote: keyboard disconnected, %s")
                [LStr "/dev/input/by-id/foo"];
      Log DEBUG (LStr "KeyboardRemote: keyboard re-connected, %s")
                [LStr "/dev/input/by-id/foo"];
      Sleep 1;
      Open "/dev/input/by-id/foo";
      Grab (mkInputDevice "/dev/input/by-id/foo" 8)]
     ++ (body (mkLoopState
                 (set_dev sample_remote (mkInputDevice "/dev/input/by-id/foo" 8)) true)
              (key_event 30 0)).2).
Proof.
  apply (disconnect_then_reconnect sample_remote
           {| stopped_isSet := false; path_exists := true;
              open_result := inr 8; grab_result := inr tt;
              read_one_result := ReadRaises IOError;
        categorize_result := inr tt |}
           [unplugged; unplugged] (key_event 30 0) 8).
  - reflexivity.
  - reflexivity.
  - repeat (constructor; [split; reflexivity |]). constructor.
  - split; [reflexivity | split; [intros x; discriminate | reflexivity]].
  - reflexivity.
  - reflexivity.
  - reflexivity.
Defined.
